(** * Scanner capture and coordinate-conversion scripts: a shallow embedding

    The development follows the Python sources file by file:
    - [PyStr] and [FloatLit]: the built-in string operations and the grammar
      of [float(str)] that the scripts rely on;
    - [PyFloat]: the numeric primitives (literal conversion, arithmetic,
      numpy's trigonometry, comparison) as an interface;
    - [Conv] (test.py, test2.py), [Monitor] and [MonitorFile]
      (serialmonitor.py), [Monitor2] (serialmonitor2.py), [Vis3] (test3.py),
      [Vis4] (test4.py); [Order]: the substring tests and the calls of
      [float] that the capture and the visualiser make on a line, in the
      order in which they make them;
    - [Ideal]: the interface instantiated with exact real arithmetic extended
      by the two infinities and NaN;
    - the vocabulary of the specification, then the lemmas and the claims.

    Conventions.  Text is a string of code points below 256.  A capture
    loop is run on the finite list of events its serial port delivers, one
    per iteration; Ctrl+C falls between two iterations.  What a function
    prints is returned beside its result.  Everything that does not depend
    on the value of a float is stated for every instance of [PyFloat];
    numbers are computed in [Ideal]. *)

From Stdlib Require Import List String Ascii Bool Arith ZArith NArith Lia.
From Stdlib Require Import Reals Lra.
From Stdlib Require Import Sorting.Sorted Sorting.Permutation.
Import ListNotations.

Open Scope string_scope.
Open Scope list_scope.

(* ===================================================================== *)
(** ** Built-in string operations *)
(* ===================================================================== *)

Module PyStr.

(** [str.isspace] on one character (code points below 256). *)
Definition isspace (c : ascii) : bool :=
  let n := nat_of_ascii c in
  (((9 <=? n) && (n <=? 13)) || ((28 <=? n) && (n <=? 32))
   || (n =? 133) || (n =? 160))%nat.

(** Leading characters that satisfy [p] removed. *)
Fixpoint lstrip_by (p : ascii -> bool) (s : string) : string :=
  match s with
  | EmptyString => EmptyString
  | String c s' => if p c then lstrip_by p s' else s
  end.

(** Trailing characters that satisfy [p] removed. *)
Fixpoint rstrip_by (p : ascii -> bool) (s : string) : string :=
  match s with
  | EmptyString => EmptyString
  | String c s' =>
      match rstrip_by p s' with
      | EmptyString => if p c then EmptyString else String c EmptyString
      | r => String c r
      end
  end.

Definition strip_by (p : ascii -> bool) (s : string) : string :=
  rstrip_by p (lstrip_by p s).

(** [s.strip()] *)
Definition strip (s : string) : string := strip_by isspace s.

(** [not s] for a string: true exactly on the empty string. *)
Definition is_empty (s : string) : bool :=
  match s with EmptyString => true | _ => false end.

Fixpoint starts_with (p s : string) : bool :=
  match p, s with
  | EmptyString, _ => true
  | String a p', String b s' => Ascii.eqb a b && starts_with p' s'
  | String _ _, EmptyString => false
  end.

(** [sub in s] *)
Fixpoint contains (sub s : string) : bool :=
  starts_with sub s ||
  match s with
  | EmptyString => false
  | String _ s' => contains sub s'
  end.

(** [any(msg in s for msg in msgs)] *)
Definition any_in (msgs : list string) (s : string) : bool :=
  existsb (fun msg => contains msg s) msgs.

Fixpoint split_aux (sep : ascii) (s : string) : string * list string :=
  match s with
  | EmptyString => (EmptyString, [])
  | String c s' =>
      let (f, fs) := split_aux sep s' in
      if Ascii.eqb c sep then (EmptyString, f :: fs) else (String c f, fs)
  end.

(** [s.split(sep)] for a one-character separator: never the empty list. *)
Definition split (sep : ascii) (s : string) : list string :=
  let (f, fs) := split_aux sep s in f :: fs.

(** [s.count(c)] for a one-character argument. *)
Fixpoint count (c : ascii) (s : string) : nat :=
  match s with
  | EmptyString => 0
  | String a s' => ((if Ascii.eqb a c then 1 else 0) + count c s')%nat
  end.

Definition comma : ascii := ","%char.

(** The character [c] occurs in [s]. *)
Fixpoint occurs (c : ascii) (s : string) : bool :=
  match s with
  | EmptyString => false
  | String a s' => Ascii.eqb a c || occurs c s'
  end.

End PyStr.

(* ===================================================================== *)
(** ** The grammar of [float(str)] *)
(* ===================================================================== *)

Module FloatLit.

(** What a string accepted by [float] denotes, before any rounding:
    [m * 10^e] with a sign, an infinity, or a NaN. *)
Inductive literal : Type :=
  | LitDec (neg : bool) (m : N) (e : Z)
  | LitInf (neg : bool)
  | LitNan.

Definition digit_val (c : ascii) : option N :=
  let n := nat_of_ascii c in
  if ((48 <=? n) && (n <=? 57))%nat then Some (N.of_nat (n - 48)) else None.

(** The tail of [digitpart ::= digit (["_"] digit)*]: consumes digits, and
    underscores that are followed by a digit; returns the accumulated value,
    the number of digits read and the unread rest. *)
Fixpoint digits_tail (acc : N) (cnt : nat) (s : string) : N * nat * string :=
  match s with
  | EmptyString => (acc, cnt, s)
  | String c s' =>
      match digit_val c with
      | Some d => digits_tail (10 * acc + d)%N (S cnt) s'
      | None =>
          if Ascii.eqb c "_" then
            match s' with
            | String c2 s'' =>
                match digit_val c2 with
                | Some d => digits_tail (10 * acc + d)%N (S cnt) s''
                | None => (acc, cnt, s)
                end
            | EmptyString => (acc, cnt, s)
            end
          else (acc, cnt, s)
      end
  end.

(** [digitpart]: at least one digit. *)
Definition digitpart (acc : N) (s : string) : option (N * nat * string) :=
  match s with
  | String c s' =>
      match digit_val c with
      | Some d => Some (digits_tail (10 * acc + d)%N 1 s')
      | None => None
      end
  | EmptyString => None
  end.

(** [sign ::= "+" | "-"], optional. *)
Definition opt_sign (s : string) : bool * string :=
  match s with
  | String c s' =>
      if Ascii.eqb c "-" then (true, s')
      else if Ascii.eqb c "+" then (false, s')
      else (false, s)
  | EmptyString => (false, s)
  end.

(** [exponent ::= ("e" | "E") [sign] digitpart], optional, then the end of
    the string. *)
Definition exponent_end (s : string) : option Z :=
  match s with
  | EmptyString => Some 0%Z
  | String c s' =>
      if Ascii.eqb c "e" || Ascii.eqb c "E" then
        let (neg, s1) := opt_sign s' in
        match digitpart 0 s1 with
        | Some (v, _, EmptyString) =>
            Some (if neg then (- Z.of_N v)%Z else Z.of_N v)
        | _ => None
        end
      else None
  end.

(** [number ::= [digitpart] "." digitpart | digitpart ["."]] followed by
    [exponent_end]. *)
Definition floatnumber (s : string) : option (N * Z) :=
  match digitpart 0 s with
  | Some (ip, _, rest) =>
      match rest with
      | String "." rest1 =>
          match digitpart ip rest1 with
          | Some (m, k, rest2) =>
              option_map (fun e => (m, (e - Z.of_nat k)%Z)) (exponent_end rest2)
          | None => option_map (fun e => (ip, e)) (exponent_end rest1)
          end
      | _ => option_map (fun e => (ip, e)) (exponent_end rest)
      end
  | None =>
      match s with
      | String "." rest1 =>
          match digitpart 0 rest1 with
          | Some (m, k, rest2) =>
              option_map (fun e => (m, (e - Z.of_nat k)%Z)) (exponent_end rest2)
          | None => None
          end
      | _ => None
      end
  end.

Definition lower (c : ascii) : ascii :=
  let n := nat_of_ascii c in
  if ((65 <=? n) && (n <=? 90))%nat then ascii_of_nat (n + 32) else c.

Fixpoint lowercase (s : string) : string :=
  match s with
  | EmptyString => EmptyString
  | String c s' => String (lower c) (lowercase s')
  end.

(** [floatvalue ::= [sign] (floatnumber | infinity | nan)], the special
    names in any letter case. *)
Definition floatvalue (s : string) : option literal :=
  let (neg, body) := opt_sign s in
  let low := lowercase body in
  if String.eqb low "inf" || String.eqb low "infinity" then Some (LitInf neg)
  else if String.eqb low "nan" then Some LitNan
  else option_map (fun me => LitDec neg (fst me) (snd me)) (floatnumber body).

(** The whitespace [float] removes around its argument: the ASCII blanks
    and the two non-ASCII spaces below 256, but not the separators 28 to 31
    that [str.strip] also removes. *)
Definition float_space (c : ascii) : bool :=
  let n := nat_of_ascii c in
  (((9 <=? n) && (n <=? 13)) || (n =? 32) || (n =? 133) || (n =? 160))%nat.

(** The argument of [float] with surrounding whitespace removed, read by
    [floatvalue]; [None] is [ValueError]. *)
Definition parse (s : string) : option literal :=
  floatvalue (PyStr.strip_by float_space s).

(** The characters a string accepted by [float] can be made of, once the
    surrounding whitespace is removed. *)
Definition float_char (c : ascii) : bool :=
  match digit_val c with
  | Some _ => true
  | None =>
      existsb (Ascii.eqb c) [ "."; "e"; "E"; "+"; "-"; "_" ]%char
      || existsb (Ascii.eqb (lower c)) [ "i"; "n"; "f"; "t"; "y"; "a" ]%char
  end.

End FloatLit.

Import FloatLit.

(* ===================================================================== *)
(** ** Numeric primitives *)
(* ===================================================================== *)

(** The floating-point operations the scripts use, as an interface.  The
    scripts never inspect the representation of a float; they convert text
    with [float], combine values with [+], [*], [<] and numpy's functions,
    and use floats as dictionary keys.  [feqb] is Python's [==] on two
    floats, which is what a dictionary lookup with a freshly parsed key
    tests; it is symmetric and transitive but need not be reflexive (NaN). *)
Class PyFloat (F : Type) : Type := {
  of_literal : literal -> F;
  fadd : F -> F -> F;
  fmul : F -> F -> F;
  fsqrt : F -> F;
  fcos : F -> F;
  fsin : F -> F;
  fradians : F -> F;
  fdegrees : F -> F;
  farctan2 : F -> F -> F;
  fltb : F -> F -> bool;
  feqb : F -> F -> bool;
  fisfinite : F -> bool;
  feqb_sym : forall x y, feqb x y = true -> feqb y x = true;
  feqb_trans : forall x y z, feqb x y = true -> feqb y z = true -> feqb x z = true
}.

(** What the loops of the capture scripts have done after a finite run of
    port events: still looping, returned to the caller, or left through an
    exception that no handler of the function catches. *)
Inductive outcome (A : Type) : Type :=
  | Running (a : A)
  | Returned (a : A)
  | Raised.
Arguments Running {A} a.
Arguments Returned {A} a.
Arguments Raised {A}.

(** One iteration of a polling loop, seen from the serial port: nothing
    waiting, a line read (already decoded), Ctrl+C, or a
    [serial.SerialException]. *)
Inductive event : Type :=
  | NoData
  | Line (raw : string)
  | Interrupt
  | Fault.

(** A [defaultdict(list)] keyed by floats, in insertion order. *)
Definition dict (F P : Type) : Type := list (F * list P).

(** A line of the saved-data file.  [Text] is literal text.  [TupleRepr vs]
    is the text Python writes for [f"{t}"] when [t] is the tuple of floats
    [vs]; [AngleHeading k] is the sub-heading line written for the key [k].
    The text of a float is left abstract: it consists of digits, a sign, a
    point, an exponent mark or one of the names inf and nan, and evaluating
    the text of a finite float gives the float back. *)
Inductive line (F : Type) : Type :=
  | Text (s : string)
  | TupleRepr (vs : list F)
  | AngleHeading (k : F).
Arguments Text {F} s.
Arguments TupleRepr {F} vs.
Arguments AngleHeading {F} k.

(** The file named by [filename] when it is opened for reading. *)
Inductive file (F : Type) : Type :=
  | Missing
  | Unreadable
  | Content (lines : list (line F)).
Arguments Missing {F}.
Arguments Unreadable {F}.
Arguments Content {F} lines.

Section Primitives.
Context {F : Type} `{PyFloat F}.

(** [float(s)]; [None] stands for [ValueError]. *)
Definition py_float (s : string) : option F := option_map of_literal (parse s).

(** An integer constant used where a float is expected. *)
Definition of_int (n : N) : F := of_literal (LitDec false n 0).

(** [[float(v) for v in values]] and [map(float, values)] once consumed:
    conversion left to right, failing at the first field [float] rejects. *)
Fixpoint floats (values : list string) : option (list F) :=
  match values with
  | [] => Some []
  | v :: values' =>
      match py_float v with
      | None => None
      | Some x =>
          match floats values' with
          | None => None
          | Some xs => Some (x :: xs)
          end
      end
  end.

(** [d[k].append(p)] *)
Fixpoint dict_append {P : Type} (d : dict F P) (k : F) (p : P) : dict F P :=
  match d with
  | [] => [(k, [p])]
  | (k', g) :: d' =>
      if feqb k' k then (k', g ++ [p]) :: d'
      else (k', g) :: dict_append d' k p
  end.


(** The entries in ascending key order, as [sorted(d.keys())] visits them:
    a stable insertion sort that compares with [<] only. *)
Fixpoint insert_sorted {P : Type} (e : F * list P) (d : dict F P) : dict F P :=
  match d with
  | [] => [e]
  | e' :: d' => if fltb (fst e') (fst e) then e' :: insert_sorted e d' else e :: d
  end.

Definition sorted_items {P : Type} (d : dict F P) : dict F P :=
  fold_right insert_sorted [] d.

(** [sub in line] for the marker the reader looks for. *)
Definition line_contains_marker (marker : string) (l : line F) : bool :=
  match l with
  | Text s => PyStr.contains marker s
  | TupleRepr _ | AngleHeading _ => false
  end.

(** [line.strip()] as a truth value. *)
Definition line_nonblank (l : line F) : bool :=
  match l with
  | Text s => negb (PyStr.is_empty (PyStr.strip s))
  | TupleRepr _ | AngleHeading _ => true
  end.

(** [',' in line]: the text of a tuple has a comma unless it is empty. *)
Definition line_has_comma (l : line F) : bool :=
  match l with
  | Text s => PyStr.contains "," s
  | TupleRepr vs => negb (List.length vs =? 0)%nat
  | AngleHeading _ => false
  end.

End Primitives.

(* ===================================================================== *)
(** ** test.py and test2.py: coordinate conversion and reconstruction *)
(* ===================================================================== *)

Module Conv.
Section WithFloat.
Context {F : Type} `{PyFloat F}.

(** [eval] on the stripped text of a line, as far as the reader uses it:
    [Some vs] when the text evaluates to a sequence of the numbers [vs],
    [None] when evaluating it, unpacking the value or computing with it
    raises an [Exception]. *)
Variable py_eval : string -> option (list F).

(** (distance, platform_angle, vertical_angle, height) *)
Definition measurement : Type := F * F * F * F.

(** [x, y, z] *)
Definition point : Type := F * F * F.

(** The body of the loop of [convert_to_cartesian]. *)
Definition to_cartesian (m : measurement) : point :=
  let '(distance, platform_angle, vertical_angle, height) := m in
  let platform_rad := fradians platform_angle in
  let vertical_rad := fradians vertical_angle in
  let x := fmul distance (fcos platform_rad) in
  let y := fmul distance (fsin platform_rad) in
  let z := height in
  (x, y, z).

Definition convert_to_cartesian (measurement_points : list measurement)
  : list point :=
  fold_left (fun cartesian_points m => cartesian_points ++ [to_cartesian m])
            measurement_points [].

(** [eval(line.strip())] on a line of the file. *)
Definition line_eval (l : line F) : option (list F) :=
  match l with
  | Text s => py_eval (PyStr.strip s)
  | TupleRepr vs => if forallb fisfinite vs then Some vs else None
  | AngleHeading _ => None
  end.

(** The unpacking of [values] into five names and the conversion that
    follows it in [read_points_from_file]; [None] when the unpacking
    raises. *)
Definition from_raw (values : list F) : option measurement :=
  match values with
  | [x; y; z; vert_angle; vert_dist] =>
      let distance := fsqrt (fadd (fmul x x) (fmul y y)) in
      let platform_angle := fdegrees (farctan2 y x) in
      let platform_angle :=
        if fltb platform_angle (of_int 0)
        then fadd platform_angle (of_int 360)
        else platform_angle in
      Some (vert_dist, platform_angle, vert_angle, z)
  | _ => None
  end.

(** One iteration of [for line in lines] on the pair
    (start_reading, measurement_points); [None] when an exception leaves
    the loop. *)
Definition read_line (st : bool * list measurement) (l : line F)
  : option (bool * list measurement) :=
  let (start_reading, measurement_points) := st in
  if line_contains_marker "=== Raw Data" l then Some (true, measurement_points)
  else if start_reading && line_nonblank l && line_has_comma l then
    match line_eval l with
    | Some values =>
        match from_raw values with
        | Some m => Some (start_reading, measurement_points ++ [m])
        | None => None
        end
    | None => None
    end
  else Some st.

Fixpoint read_lines (st : bool * list measurement) (lines : list (line F))
  : option (bool * list measurement) :=
  match lines with
  | [] => Some st
  | l :: lines' =>
      match read_line st l with
      | Some st' => read_lines st' lines'
      | None => None
      end
  end.

(** The two messages the handlers print. *)
Inductive report : Type :=
  | CouldNotFind
  | ErrorReadingFile.

(** [read_points_from_file]: the returned list and what was printed. *)
Definition read_points_from_file (f : file F) : list measurement * list report :=
  match f with
  | Missing => ([], [CouldNotFind])
  | Unreadable => ([], [ErrorReadingFile])
  | Content lines =>
      match read_lines (false, []) lines with
      | Some (_, measurement_points) => (measurement_points, [])
      | None => ([], [ErrorReadingFile])
      end
  end.

(** [main] of test2.py up to the call of the plotting routine: the points
    handed to it, or [None] when it returns early with no points. *)
Definition main (f : file F) : option (list point) :=
  let measurement_points := fst (read_points_from_file f) in
  match measurement_points with
  | [] => None
  | _ => Some (convert_to_cartesian measurement_points)
  end.

End WithFloat.
End Conv.

Arguments Conv.measurement F : clear implicits.
Arguments Conv.point F : clear implicits.

(* ===================================================================== *)
(** ** serialmonitor.py: the 4-field capture loop *)
(* ===================================================================== *)

Module Monitor.
Section WithFloat.
Context {F : Type} `{PyFloat F}.

Definition measurement : Type := F * F * F * F.

(** What the loop prints for a line. *)
Inductive report : Type :=
  | Received (p : measurement)
  | ErrorParsingLine (line : string).

(** The body of [if ser.in_waiting:] for the line just read. *)
Definition on_line (measurement_points : list measurement) (raw : string)
  : list measurement * list report :=
  let line := PyStr.strip raw in
  if PyStr.is_empty line then (measurement_points, [])
  else
    let values := PyStr.split PyStr.comma line in
    if (List.length values =? 4)%nat then
      match floats values with
      | Some [distance; platform_angle; vertical_angle; height] =>
          let point := (distance, platform_angle, vertical_angle, height) in
          (measurement_points ++ [point], [Received point])
      | _ => (measurement_points, [ErrorParsingLine line])
      end
    else (measurement_points, []).

(** [while True] on the events the port delivers, from the list collected
    so far. *)
Fixpoint read_loop (measurement_points : list measurement) (evs : list event)
  : outcome (list measurement) :=
  match evs with
  | [] => Running measurement_points
  | NoData :: evs' => read_loop measurement_points evs'
  | Line raw :: evs' => read_loop (fst (on_line measurement_points raw)) evs'
  | Interrupt :: _ => Returned measurement_points
  | Fault :: _ => Raised
  end.

Definition read_serial_data (evs : list event) : outcome (list measurement) :=
  read_loop [] evs.

(** [main] after the connection is made: the points handed to
    [save_measurements], if it is reached and called. *)
Definition main (evs : list event) : option (list measurement) :=
  match read_serial_data evs with
  | Returned (p :: ps) => Some (p :: ps)
  | _ => None
  end.

End WithFloat.
End Monitor.

Arguments Monitor.measurement F : clear implicits.

(* ===================================================================== *)
(** ** serialmonitor2.py: the 5-field capture loop and the saved file *)
(* ===================================================================== *)

Module Monitor2.
Section WithFloat.
Context {F : Type} `{PyFloat F}.

Definition point : Type := F * F * F.

(** (x, y, z, vertical_angle, vertical_distance) *)
Definition raw_tuple : Type := F * F * F * F * F.

(** The three collections of [read_scanner_data]. *)
Record scan : Type := {
  points_list : list point;
  points_by_angle : dict F point;
  raw_data : list raw_tuple
}.

Definition empty_scan : scan :=
  {| points_list := []; points_by_angle := []; raw_data := [] |}.

Definition boot_messages : list string :=
  [ "SPIWP:"; "clk_drv:"; "mode:"; "load:";
    "Scanner initialized"; "Starting full 3D scan";
    "Scanning at vertical angle" ].

Definition is_valid_data_line (line : string) : bool :=
  if PyStr.any_in boot_messages line then false
  else
    let values := PyStr.split PyStr.comma line in
    if (List.length values =? 5)%nat then
      match floats values with
      | Some _ => true
      | None => false
      end
    else false.

(** What the loop prints for a line. *)
Inductive report : Type :=
  | ScanStarted
  | ScanCompleted
  | ScanningAt (line : string)
  | PointCaptured (p : point) (vert_angle : F).

(** The status messages printed for a skipped line. *)
Definition status_of (line : string) : list report :=
  if PyStr.contains "Starting full 3D scan" line then [ScanStarted]
  else if PyStr.contains "Scan complete!" line then [ScanCompleted]
  else if PyStr.contains "Scanning at vertical angle" line then [ScanningAt line]
  else [].

(** The three appends that store one parsed line. *)
Definition store (st : scan) (x y z vert_angle vert_dist : F) : scan :=
  let point_3d := (x, y, z) in
  {| points_list := points_list st ++ [point_3d];
     points_by_angle := dict_append (points_by_angle st) vert_angle point_3d;
     raw_data := raw_data st ++ [(x, y, z, vert_angle, vert_dist)] |}.

(** The body of [if ser.in_waiting:] for the line just read. *)
Definition on_line (st : scan) (raw : string) : scan * list report :=
  let line := PyStr.strip raw in
  if PyStr.is_empty line || negb (is_valid_data_line line) then
    (st, status_of line)
  else
    match floats (PyStr.split PyStr.comma line) with
    | Some [x; y; z; vert_angle; vert_dist] =>
        (store st x y z vert_angle vert_dist,
         [PointCaptured (x, y, z) vert_angle])
    | _ => (st, [])
    end.

(** [while True] on the events the port delivers. *)
Fixpoint read_loop (st : scan) (evs : list event) : outcome scan :=
  match evs with
  | [] => Running st
  | NoData :: evs' => read_loop st evs'
  | Line raw :: evs' => read_loop (fst (on_line st raw)) evs'
  | Interrupt :: _ => Returned st
  | Fault :: _ => Raised
  end.

Definition read_scanner_data (evs : list event) : outcome scan :=
  read_loop empty_scan evs.

Definition point_line (p : point) : line F :=
  let '(x, y, z) := p in TupleRepr [x; y; z].

Definition raw_line (t : raw_tuple) : line F :=
  let '(x, y, z, vert_angle, vert_dist) := t in
  TupleRepr [x; y; z; vert_angle; vert_dist].

(** [save_data_to_file]: the lines written, in order. *)
Definition save_data_to_file (points_list : list point)
    (points_by_angle : dict F point) (raw_data : list raw_tuple) : list (line F) :=
  [Text "=== 3D Points (x, y, z) ==="]
  ++ map point_line points_list
  ++ [Text ""; Text "=== Points by Vertical Angle ==="]
  ++ flat_map (fun e => [Text ""; AngleHeading (fst e)] ++ map point_line (snd e))
              (sorted_items points_by_angle)
  ++ [Text ""; Text "=== Raw Data (x, y, z, vertical_angle, vertical_distance) ==="]
  ++ map raw_line raw_data.

(** [main] after the connection is made: the file written, if any. *)
Definition main (evs : list event) : option (list (line F)) :=
  match read_scanner_data evs with
  | Returned st =>
      match points_list st with
      | [] => None
      | _ => Some (save_data_to_file (points_list st) (points_by_angle st) (raw_data st))
      end
  | _ => None
  end.

End WithFloat.
End Monitor2.

Arguments Monitor2.point F : clear implicits.
Arguments Monitor2.raw_tuple F : clear implicits.
Arguments Monitor2.scan F : clear implicits.

(* ===================================================================== *)
(** ** test4.py: the live visualiser *)
(* ===================================================================== *)

(** What one call of [read_data] finds at the port. *)
Inductive poll : Type :=
  | Empty
  | Got (raw : string)
  | Broken.

Module Vis4.
Section WithFloat.
Context {F : Type} `{PyFloat F}.

Definition point : Type := F * F * F.

Record visualizer : Type := {
  ser : bool;
  points : list point;
  scanning : bool
}.

(** What [read_data] prints. *)
Inductive report : Type :=
  | Echo (line : string)
  | Error (line : string)
  | Status (line : string)
  | ScanCompleted
  | PointData (p : point)
  | SerialReadError.

Definition set_scanning (self : visualizer) (b : bool) : visualizer :=
  {| ser := ser self; points := points self; scanning := b |}.

Definition append_point (self : visualizer) (p : point) : visualizer :=
  {| ser := ser self; points := points self ++ [p]; scanning := scanning self |}.

Definition init_messages : list string :=
  ["initialized"; "configured"; "detected"; "starting"; "ready"; "Failed"].

Definition read_data (self : visualizer) (p : poll)
  : visualizer * bool * list report :=
  if negb (ser self) then (self, false, [])
  else
    match p with
    | Broken => (self, false, [SerialReadError])
    | Empty => (self, true, [])
    | Got raw =>
        let line := PyStr.strip raw in
        if PyStr.any_in init_messages line then
          if PyStr.contains "Failed" line
          then (set_scanning self false, false, [Echo line; Error line])
          else (self, true, [Echo line; Status line])
        else if PyStr.contains "Scan complete" line
        then (set_scanning self false, false, [Echo line; ScanCompleted])
        else if (PyStr.count PyStr.comma line =? 2)%nat then
          match floats (PyStr.split PyStr.comma line) with
          | Some [x; y; z] =>
              (append_point self (x, y, z), true,
               [Echo line; PointData (x, y, z)])
          | _ => (self, true, [Echo line])
          end
        else (self, true, [Echo line])
    end.

(** The part of [update_plot] that touches the session. *)
Definition update_plot (self : visualizer) (p : poll) : visualizer :=
  if scanning self then fst (fst (read_data self p)) else self.

(** The animation: one [update_plot] per frame; a frame reads from the
    port only while [scanning] is set, so what the port holds when it is
    cleared stays unread. *)
Fixpoint run (self : visualizer) (ps : list poll) : visualizer * list poll :=
  match ps with
  | [] => (self, [])
  | p :: ps' =>
      if scanning self then run (update_plot self p) ps' else (self, ps)
  end.

(** The session after [connect_serial] and [start_scan] succeeded. *)
Definition started : visualizer :=
  {| ser := true; points := []; scanning := true |}.

End WithFloat.
End Vis4.

Arguments Vis4.point F : clear implicits.
Arguments Vis4.visualizer F : clear implicits.

(* ===================================================================== *)
(** ** An evaluator for the tuple displays the reader meets *)
(* ===================================================================== *)

(** [eval] restricted to what a saved-data file holds: a comma-separated
    display of decimal number literals, with or without the enclosing
    parentheses.  Every other text is taken to raise: names such as inf and
    nan are unbound, an unbalanced or non-numeric display is a syntax or
    name error, and a single number is no sequence to unpack. *)
Module TupleDisplay.

(** The blanks allowed between the tokens of an expression. *)
Definition blank (c : ascii) : bool :=
  let n := nat_of_ascii c in ((n =? 32) || (n =? 9) || (n =? 12))%nat.

(** [Some body] when [s] is [body] followed by the character [c]. *)
Fixpoint drop_last (c : ascii) (s : string) : option string :=
  match s with
  | EmptyString => None
  | String a EmptyString => if Ascii.eqb a c then Some EmptyString else None
  | String a s' => option_map (String a) (drop_last c s')
  end.

(** Whether the text is parenthesised, and the text between the
    parentheses, or the text itself when it has no parenthesis at all. *)
Definition unparen (s : string) : option (bool * string) :=
  match s with
  | String "(" s' => option_map (pair true) (drop_last ")" s')
  | _ =>
      if PyStr.contains "(" s || PyStr.contains ")" s then None
      else Some (false, s)
  end.

(** One number: the literals of [float] without the special names, with a
    sign directly before the number.  A decimal integer literal may not
    start with a zero unless it is zero; a literal with a point or an
    exponent may. *)
Definition number (s : string) : option literal :=
  let t := PyStr.strip_by blank s in
  match floatvalue t with
  | Some (LitDec neg m e) =>
      let (_, body) := opt_sign t in
      let is_float :=
        PyStr.contains "." body || PyStr.contains "e" body
        || PyStr.contains "E" body in
      if is_float || negb (PyStr.starts_with "0" body) || (m =? 0)%N
      then Some (LitDec neg m e) else None
  | _ => None
  end.

(** The elements of a display with at least one comma; a blank after the
    last comma is no element. *)
Fixpoint numbers (elts : list string) : option (list literal) :=
  match elts with
  | [] => Some []
  | [last] =>
      if PyStr.is_empty (PyStr.strip_by blank last) then Some []
      else option_map (fun x => [x]) (number last)
  | e :: elts' =>
      match number e, numbers elts' with
      | Some x, Some xs => Some (x :: xs)
      | _, _ => None
      end
  end.

(** Without a comma the text is the empty tuple when it is a pair of
    parentheses around blanks, and no sequence otherwise. *)
Definition elements (parens : bool) (body : string) : option (list literal) :=
  match PyStr.split PyStr.comma body with
  | [only] =>
      if parens && PyStr.is_empty (PyStr.strip_by blank only) then Some []
      else None
  | elts => numbers elts
  end.

Definition eval {F : Type} `{PyFloat F} (s : string) : option (list F) :=
  match unparen (PyStr.strip_by blank s) with
  | Some (parens, body) => option_map (map of_literal) (elements parens body)
  | None => None
  end.

End TupleDisplay.

(* ===================================================================== *)
(** ** Exact arithmetic as an instance of the numeric interface *)
(* ===================================================================== *)

(** Floats idealised: a finite float is the real number it denotes, with no
    rounding, no overflow and a single zero; the two infinities and NaN
    follow the IEEE rules.  [radians], [degrees], [cos], [sin], [sqrt] and
    [arctan2] are numpy's functions on these values.  The instance serves
    to evaluate the scenarios and the instances of the theorems; what is
    stated of the scripts in general is stated for every instance of
    [PyFloat]. *)
Module Ideal.

Local Open Scope R_scope.

Inductive ideal : Type :=
  | Fin (r : R)
  | PInf
  | NInf
  | NaN.

Definition inf (neg : bool) : ideal := if neg then NInf else PInf.

Definition lit (l : literal) : ideal :=
  match l with
  | LitDec neg m e =>
      let v := IZR (Z.of_N m) * powerRZ 10 e in
      Fin (if neg then - v else v)
  | LitInf neg => inf neg
  | LitNan => NaN
  end.

Definition negative (r : R) : bool := if Rlt_dec r 0 then true else false.
Definition positive (r : R) : bool := if Rlt_dec 0 r then true else false.

Definition add (a b : ideal) : ideal :=
  match a, b with
  | NaN, _ | _, NaN => NaN
  | Fin x, Fin y => Fin (x + y)
  | PInf, NInf | NInf, PInf => NaN
  | PInf, _ | _, PInf => PInf
  | NInf, _ | _, NInf => NInf
  end.

(** An infinity of sign [neg] times the finite [r]. *)
Definition inf_times (neg : bool) (r : R) : ideal :=
  if positive r then inf neg
  else if negative r then inf (negb neg)
  else NaN.

Definition mul (a b : ideal) : ideal :=
  match a, b with
  | NaN, _ | _, NaN => NaN
  | Fin x, Fin y => Fin (x * y)
  | PInf, Fin y | Fin y, PInf => inf_times false y
  | NInf, Fin y | Fin y, NInf => inf_times true y
  | PInf, PInf | NInf, NInf => PInf
  | PInf, NInf | NInf, PInf => NInf
  end.

Definition sqrt (a : ideal) : ideal :=
  match a with
  | Fin x => if negative x then NaN else Fin (R_sqrt.sqrt x)
  | PInf => PInf
  | NInf | NaN => NaN
  end.

Definition cos (a : ideal) : ideal :=
  match a with Fin x => Fin (Rtrigo_def.cos x) | _ => NaN end.

Definition sin (a : ideal) : ideal :=
  match a with Fin x => Fin (Rtrigo_def.sin x) | _ => NaN end.

Definition radians (a : ideal) : ideal := mul a (Fin (PI / 180)).
Definition degrees (a : ideal) : ideal := mul a (Fin (180 / PI)).

(** The angle of the point (x, y), in (-PI, PI]. *)
Definition atan2 (y x : R) : R :=
  if positive x then atan (y / x)
  else if negative x then
    if negative y then atan (y / x) - PI else atan (y / x) + PI
  else if positive y then PI / 2
  else if negative y then - (PI / 2)
  else 0.

Definition arctan2 (b a : ideal) : ideal :=
  match b, a with
  | NaN, _ | _, NaN => NaN
  | Fin y, Fin x => Fin (atan2 y x)
  | Fin y, PInf => Fin 0
  | Fin y, NInf => Fin (if negative y then - PI else PI)
  | PInf, Fin _ => Fin (PI / 2)
  | NInf, Fin _ => Fin (- (PI / 2))
  | PInf, PInf => Fin (PI / 4)
  | NInf, PInf => Fin (- (PI / 4))
  | PInf, NInf => Fin (3 * PI / 4)
  | NInf, NInf => Fin (- (3 * PI / 4))
  end.

Definition ltb (a b : ideal) : bool :=
  match a, b with
  | NaN, _ | _, NaN => false
  | Fin x, Fin y => if Rlt_dec x y then true else false
  | NInf, NInf | PInf, _ | Fin _, NInf => false
  | NInf, _ | Fin _, PInf => true
  end.

Definition eqb (a b : ideal) : bool :=
  match a, b with
  | Fin x, Fin y => if Req_dec_T x y then true else false
  | PInf, PInf | NInf, NInf => true
  | _, _ => false
  end.

Definition isfinite (a : ideal) : bool :=
  match a with Fin _ => true | _ => false end.

#[export] Instance ideal_float : PyFloat ideal.
Proof.
  refine {| of_literal := lit;
            fadd := add;
            fmul := mul;
            fsqrt := sqrt;
            fcos := cos;
            fsin := sin;
            fradians := radians;
            fdegrees := degrees;
            farctan2 := arctan2;
            fltb := ltb;
            feqb := eqb;
            fisfinite := isfinite |}.
  - intros x y. destruct x, y; simpl; try easy.
    destruct (Req_dec_T r r0), (Req_dec_T r0 r); congruence.
  - intros x y z. destruct x, y, z; simpl; try easy.
    destruct (Req_dec_T r r0), (Req_dec_T r0 r1), (Req_dec_T r r1); congruence.
Defined.

(** The float denoted by an integer constant. *)
Definition num (z : Z) : ideal := Fin (IZR z).

(** Two finite values within [eps] of each other. *)
Definition close (eps : R) (a b : ideal) : Prop :=
  match a, b with
  | Fin x, Fin y => Rabs (x - y) <= eps
  | _, _ => False
  end.

Definition close_point (eps : R) (p q : ideal * ideal * ideal) : Prop :=
  let '(x, y, z) := p in
  let '(x', y', z') := q in
  close eps x x' /\ close eps y y' /\ close eps z z'.

(** The tolerance the comparisons of points use: 1e-9 mm. *)
Definition tolerance : R := / 1000000000.

End Ideal.

(* ===================================================================== *)
(** ** Vocabulary of the specification *)
(* ===================================================================== *)

(** The state a loop has reached, when no exception ended it. *)
Definition collected {A : Type} (o : outcome A) : option A :=
  match o with
  | Running a | Returned a => Some a
  | Raised => None
  end.

(** Events that neither stop nor break the loop. *)
Definition is_input (ev : event) : bool :=
  match ev with
  | NoData | Line _ => true
  | Interrupt | Fault => false
  end.


(** [l'] is [l] with elements added at the end. *)
Definition extends {A : Type} (l l' : list A) : Prop := exists tl, l' = l ++ tl.

(** The lines of scenario C. *)
Definition scenario_c : list string :=
  ["Scanner initialized"; "S"; "10,20,30,5,45"; "Scan complete!"].

Section Vocabulary.
Context {F : Type} `{PyFloat F}.

(** The comma-separated fields of a trimmed line. *)
Definition fields (line : string) : list string := PyStr.split PyStr.comma line.

(** A trimmed line that is no data line of the schema with [arity] fields:
    empty, another number of fields, or a field [float] rejects. *)
Definition malformed (arity : nat) (line : string) : Prop :=
  line = EmptyString
  \/ List.length (fields line) <> arity
  \/ exists v, In v (fields line) /\ py_float v = None.

(** Exactly four fields, each read by [float]. *)
Definition four_floats (line : string) : option (F * F * F * F) :=
  match fields line with
  | [a; b; c; d] =>
      match py_float a, py_float b, py_float c, py_float d with
      | Some x, Some y, Some z, Some w => Some (x, y, z, w)
      | _, _, _, _ => None
      end
  | _ => None
  end.

(** Exactly five fields, each read by [float]. *)
Definition five_floats (line : string) : option (F * F * F * F * F) :=
  match fields line with
  | [a; b; c; d; e] =>
      match py_float a, py_float b, py_float c, py_float d, py_float e with
      | Some x, Some y, Some z, Some w, Some v => Some (x, y, z, w, v)
      | _, _, _, _, _ => None
      end
  | _ => None
  end.

(** The samples a 4-field capture should hold after the events [evs]. *)
Definition accepted4 (evs : list event) : list (F * F * F * F) :=
  flat_map (fun ev =>
              match ev with
              | Line raw =>
                  match four_floats (PyStr.strip raw) with
                  | Some m => [m]
                  | None => []
                  end
              | _ => []
              end) evs.

(** A line of the 5-field capture that carries none of the boot phrases. *)
Definition data5 (raw : string) : option (F * F * F * F * F) :=
  let line := PyStr.strip raw in
  if PyStr.any_in Monitor2.boot_messages line then None else five_floats line.

(** The raw tuples a 5-field capture should hold after the events [evs]. *)
Definition accepted5 (evs : list event) : list (F * F * F * F * F) :=
  flat_map (fun ev =>
              match ev with
              | Line raw =>
                  match data5 raw with
                  | Some t => [t]
                  | None => []
                  end
              | _ => []
              end) evs.

Definition point_of (t : F * F * F * F * F) : F * F * F :=
  let '(x, y, z, _, _) := t in (x, y, z).


(** What [read_points_from_file] makes of one raw tuple. *)
Definition rebuilt (t : F * F * F * F * F) : F * F * F * F :=
  let '(x, y, z, vert_angle, vert_dist) := t in
  let platform_angle := fdegrees (farctan2 y x) in
  (vert_dist,
   (if fltb platform_angle (of_int 0)
    then fadd platform_angle (of_int 360)
    else platform_angle),
   vert_angle, z).

(** All five numbers of a raw tuple are finite. *)
Definition finite_tuple (t : F * F * F * F * F) : bool :=
  let '(x, y, z, vert_angle, vert_dist) := t in
  forallb fisfinite [x; y; z; vert_angle; vert_dist].

(** A line that does not carry the raw-data marker. *)
Definition no_marker (l : line F) : bool :=
  negb (line_contains_marker "=== Raw Data" l).

(** The three appends of [Monitor2.store] for one raw tuple. *)
Definition store_tuple (st : Monitor2.scan F) (t : F * F * F * F * F)
  : Monitor2.scan F :=
  let '(x, y, z, vert_angle, vert_dist) := t in
  Monitor2.store st x y z vert_angle vert_dist.

(** Every group of [d] is kept by [d'] under the same key and at the same
    place, possibly longer; [d'] may have more groups at the end. *)
Fixpoint dict_extends {P : Type} (d d' : dict F P) : Prop :=
  match d, d' with
  | [], _ => True
  | (k, g) :: r, (k', g') :: r' => k = k' /\ extends g g' /\ dict_extends r r'
  | _ :: _, [] => False
  end.

(** The three collections of [st'] extend those of [st]. *)
Definition grows (st st' : Monitor2.scan F) : Prop :=
  extends (Monitor2.points_list st) (Monitor2.points_list st')
  /\ extends (Monitor2.raw_data st) (Monitor2.raw_data st')
  /\ dict_extends (Monitor2.points_by_angle st) (Monitor2.points_by_angle st').



(** The lines after the first one that carries the raw-data marker. *)
Fixpoint raw_section (lines : list (line F)) : list (line F) :=
  match lines with
  | [] => []
  | l :: lines' =>
      if line_contains_marker "=== Raw Data" l then lines' else raw_section lines'
  end.

(** A line of the raw-data section that is read as a tuple: not a marker
    line, not blank, with a comma. *)
Definition tuple_line (l : line F) : bool :=
  negb (line_contains_marker "=== Raw Data" l)
  && line_nonblank l && line_has_comma l.

(** A tuple line is well formed when it evaluates to five numbers. *)
Definition well_formed (py_eval : string -> option (list F)) (l : line F) : Prop :=
  exists x y z vert_angle vert_dist,
    Conv.line_eval py_eval l = Some [x; y; z; vert_angle; vert_dist].


End Vocabulary.

Module Scenarios.
Import Ideal.

(** Scenario A: the four samples and the points they should become. *)
Definition scenario_a_lines : list string :=
  ["80,0,0,0"; "80,90,0,50"; "80,180,0,100"; "80,270,0,150"].

Definition scenario_a_samples : list (Conv.measurement ideal) :=
  [ (num 80, num 0, num 0, num 0);
    (num 80, num 90, num 0, num 50);
    (num 80, num 180, num 0, num 100);
    (num 80, num 270, num 0, num 150) ].

Definition scenario_a_points : list (Conv.point ideal) :=
  [ (num 80, num 0, num 0);
    (num 0, num 80, num 50);
    (num (-80), num 0, num 100);
    (num 0, num (-80), num 150) ].

(** A sample on the x axis whose vertical distance is not its distance
    from the axis of rotation, as a line of the 5-field capture and as the
    raw-data line the saved file holds for it. *)
Definition axis_sample_line : string := "1.0,0.0,5.0,45.0,2.0".

Definition axis_sample : Monitor2.raw_tuple ideal :=
  (num 1, num 0, num 5, num 45, num 2).

Definition axis_sample_file : list (line ideal) :=
  [ Text "=== Raw Data (x, y, z, vertical_angle, vertical_distance) ===";
    Text "(1.0, 0.0, 5.0, 45.0, 2.0)" ].

End Scenarios.

(* ===================================================================== *)
(** ** test3.py: the first live visualiser *)
(* ===================================================================== *)

Module Vis3.
Section WithFloat.
Context {F : Type} `{PyFloat F}.

Definition point : Type := F * F * F.

Record visualizer : Type := {
  ser : bool;
  points : list point;
  scanning : bool
}.

(** What [read_data] prints. *)
Inductive report : Type :=
  | RawData (line : string)
  | Status (line : string)
  | ScanCompleted
  | ParsedPoint (p : point)
  | ParseError (line : string)
  | SerialReadError.

Definition set_scanning (self : visualizer) (b : bool) : visualizer :=
  {| ser := ser self; points := points self; scanning := b |}.

Definition append_point (self : visualizer) (p : point) : visualizer :=
  {| ser := ser self; points := points self ++ [p]; scanning := scanning self |}.

Definition read_data (self : visualizer) (p : poll)
  : visualizer * bool * list report :=
  if negb (ser self) then (self, false, [])
  else
    match p with
    | Broken => (self, false, [SerialReadError])
    | Empty => (self, true, [])
    | Got raw =>
        let line := PyStr.strip raw in
        if PyStr.is_empty line then (self, true, [RawData line])
        else if PyStr.contains "Scanner initialized" line
                || PyStr.contains "Starting" line
        then (self, true, [RawData line; Status line])
        else if PyStr.contains "Scan complete" line
        then (set_scanning self false, false, [RawData line; ScanCompleted])
        else
          match floats (PyStr.split PyStr.comma line) with
          | Some [x; y; z] =>
              (append_point self (x, y, z), true,
               [RawData line; ParsedPoint (x, y, z)])
          | _ => (self, true, [RawData line; ParseError line])
          end
    end.

(** The part of [update_plot] that touches the session. *)
Definition update_plot (self : visualizer) (p : poll) : visualizer :=
  if scanning self then fst (fst (read_data self p)) else self.

(** The animation: one [update_plot] per frame, reading from the port only
    while [scanning] is set.  The drawing, which changes nothing of the
    session, is left out. *)
Fixpoint run (self : visualizer) (ps : list poll) : visualizer * list poll :=
  match ps with
  | [] => (self, [])
  | p :: ps' =>
      if scanning self then run (update_plot self p) ps' else (self, ps)
  end.

End WithFloat.
End Vis3.

Arguments Vis3.point F : clear implicits.
Arguments Vis3.visualizer F : clear implicits.

(* ===================================================================== *)
(** ** serialmonitor.py: the file of the 4-field capture *)
(* ===================================================================== *)

Module MonitorFile.
Section WithFloat.
Context {F : Type} `{PyFloat F}.

(** The text an f-string writes for a float. *)
Variable float_text : F -> string.

(** The line written for one point. *)
Definition row (point : Monitor.measurement F) : line F :=
  let '(p0, p1, p2, p3) := point in
  Text (float_text p0 ++ "," ++ float_text p1 ++ ","
        ++ float_text p2 ++ "," ++ float_text p3).

(** [save_measurements]: the lines written, in order. *)
Definition save_measurements (points : list (Monitor.measurement F))
  : list (line F) :=
  Text "distance,platform_angle,vertical_angle,height" :: map row points.

End WithFloat.
End MonitorFile.

(* ===================================================================== *)
(** ** Vocabulary for the visualisers and the saved files *)
(* ===================================================================== *)

(** [l] cut before its first element that satisfies [stop]. *)
Fixpoint until {A : Type} (stop : A -> bool) (l : list A) : list A * list A :=
  match l with
  | [] => ([], [])
  | a :: l' =>
      if stop a then ([], l)
      else let (pre, rest) := until stop l' in (a :: pre, rest)
  end.

(** A line that ends the session of the visualiser of test4.py. *)
Definition stops4 (p : poll) : bool :=
  match p with
  | Got raw =>
      let line := PyStr.strip raw in
      PyStr.contains "Failed" line
      || (negb (PyStr.any_in Vis4.init_messages line)
          && PyStr.contains "Scan complete" line)
  | Empty | Broken => false
  end.

(** A line that ends the session of the visualiser of test3.py. *)
Definition stops3 (p : poll) : bool :=
  match p with
  | Got raw =>
      let line := PyStr.strip raw in
      negb (PyStr.contains "Scanner initialized" line
            || PyStr.contains "Starting" line)
      && PyStr.contains "Scan complete" line
  | Empty | Broken => false
  end.

(** A poll that brings no line with a phrase on which the two visualisers
    differ. *)
Definition quiet (p : poll) : bool :=
  match p with
  | Got raw =>
      let line := PyStr.strip raw in
      negb (PyStr.any_in Vis4.init_messages line)
      && negb (PyStr.contains "Starting" line)
  | Empty | Broken => true
  end.

Section MoreVocabulary.
Context {F : Type} `{PyFloat F}.

(** Exactly three fields, each read by [float]. *)
Definition three_floats (line : string) : option (F * F * F) :=
  match fields line with
  | [a; b; c] =>
      match py_float a, py_float b, py_float c with
      | Some x, Some y, Some z => Some (x, y, z)
      | _, _, _ => None
      end
  | _ => None
  end.

(** The points a visualiser should hold after reading the polls [ps]. *)
Definition accepted3 (ps : list poll) : list (F * F * F) :=
  flat_map (fun p =>
              match p with
              | Got raw =>
                  match three_floats (PyStr.strip raw) with
                  | Some q => [q]
                  | None => []
                  end
              | Empty | Broken => []
              end) ps.

(** The keys of the sub-headings of a saved file, in file order. *)
Definition headings (lines : list (line F)) : list F :=
  flat_map (fun l => match l with AngleHeading k => [k] | _ => [] end) lines.

(** [<] orders the keys [ks]: it is asymmetric, and "not less than" is
    transitive.  It does so when no key is a NaN. *)
Definition ordered_keys (ks : list F) : Prop :=
  (forall a b, In a ks -> In b ks -> fltb a b = true -> fltb b a = false)
  /\ (forall a b c, In a ks -> In b ks -> In c ks ->
        fltb b a = false -> fltb c b = false -> fltb c a = false).

(** No key of [ks] is less than a key that comes before it. *)
Definition ascending (ks : list F) : Prop :=
  Sorted.StronglySorted (fun a b => fltb b a = false) ks.

End MoreVocabulary.

(* ===================================================================== *)
(** ** The order in which a line is examined *)
(* ===================================================================== *)

(** One operation on a line: the substring test [phrase in line], or the
    call [float(field)]. *)
Inductive step : Type :=
  | Look (phrase : string)
  | Parse (field : string).

Module Order.
Section WithFloat.
Context {F : Type} `{PyFloat F}.

(** The tests [msg in line] for the phrases in turn, up to and including
    the first that succeeds: the [for] loop that returns at its first match,
    [any] over a generator, a chain of [if] and [elif]. *)
Fixpoint looks (phrases : list string) (line : string) : list step :=
  match phrases with
  | [] => []
  | msg :: phrases' =>
      Look msg :: (if PyStr.contains msg line then [] else looks phrases' line)
  end.

(** The calls of [float] on the fields in turn, up to and including the
    first that raises. *)
Fixpoint parses (values : list string) : list step :=
  match values with
  | [] => []
  | v :: values' =>
      Parse v :: match py_float (F:=F) v with
                 | Some _ => parses values'
                 | None => []
                 end
  end.

(** The phrases [read_scanner_data] reports, in the order of its [if] and
    [elif]. *)
Definition status_phrases : list string :=
  ["Starting full 3D scan"; "Scan complete!"; "Scanning at vertical angle"].

(** [is_valid_data_line] of serialmonitor2.py. *)
Definition is_valid_data_line (line : string) : list step :=
  looks Monitor2.boot_messages line
  ++ (if PyStr.any_in Monitor2.boot_messages line then []
      else
        let values := PyStr.split PyStr.comma line in
        if (List.length values =? 5)%nat then parses values else []).

(** The body of [if ser.in_waiting:] of [read_scanner_data], once the line
    is read and trimmed. *)
Definition on_line (raw : string) : list step :=
  let line := PyStr.strip raw in
  if PyStr.is_empty line then looks status_phrases line
  else
    is_valid_data_line line
    ++ (if Monitor2.is_valid_data_line (F:=F) line
        then parses (PyStr.split PyStr.comma line)
        else looks status_phrases line).

(** [read_data] of test4.py on an open port with a line waiting, once the
    line is read and trimmed. *)
Definition read_data (raw : string) : list step :=
  let line := PyStr.strip raw in
  looks Vis4.init_messages line
  ++ (if PyStr.any_in Vis4.init_messages line then [Look "Failed"]
      else
        Look "Scan complete"
        :: (if PyStr.contains "Scan complete" line then []
            else if (PyStr.count PyStr.comma line =? 2)%nat
                 then parses (PyStr.split PyStr.comma line)
                 else [])).

End WithFloat.
End Order.

(** The height of a point. *)
Definition height_of {F : Type} (p : F * F * F) : F := let '(_, _, z) := p in z.

(** What the x and y of a rebuilt point are computed from. *)
Definition plan_of {F : Type} (t : F * F * F * F * F) : F * F * F :=
  let '(x, y, _, _, vert_dist) := t in (x, y, vert_dist).

(* ===================================================================== *)
(** ** Checks of the grammar and the string operations *)
(* ===================================================================== *)

Example parse_80 : parse "80" = Some (LitDec false 80 0).
Proof. reflexivity. Qed.
Example parse_dec : parse " -1_0.25e+3 " = Some (LitDec true 1025 1).
Proof. reflexivity. Qed.
Example parse_dot : parse "." = None.
Proof. reflexivity. Qed.
Example parse_lead : parse ".5" = Some (LitDec false 5 (-1)).
Proof. reflexivity. Qed.
Example parse_trail : parse "5." = Some (LitDec false 5 0).
Proof. reflexivity. Qed.
Example parse_us : parse "1__0" = None.
Proof. reflexivity. Qed.
Example parse_inf : parse "-Infinity" = Some (LitInf true).
Proof. reflexivity. Qed.
Example parse_clk : parse "clk_drv:" = None.
Proof. reflexivity. Qed.
Example parse_empty : parse "" = None.
Proof. reflexivity. Qed.
Example split_ex : PyStr.split PyStr.comma "10.0,clk_drv:,mode:" = ["10.0"; "clk_drv:"; "mode:"].
Proof. reflexivity. Qed.
Example strip_ex : PyStr.strip (String (ascii_of_nat 9) " a b  ") = "a b".
Proof. reflexivity. Qed.

(* ===================================================================== *)
(** ** Lists and strings *)
(* ===================================================================== *)

Section ListFacts.
Context {A B : Type}.

Lemma fold_append_map (f : A -> B) (l : list A) (acc : list B) :
  fold_left (fun acc a => acc ++ [f a]) l acc = acc ++ map f l.
Proof.
  revert acc; induction l as [|a l IH]; intros acc; simpl.
  - now rewrite app_nil_r.
  - rewrite IH, <- app_assoc. reflexivity.
Qed.

End ListFacts.

Module StrFacts.
Import PyStr.

Lemma split_aux_length sep s :
  List.length (snd (split_aux sep s)) = count sep s.
Proof.
  induction s as [|a s IH]; simpl; [reflexivity|].
  destruct (split_aux sep s) as [f fs]; simpl in *.
  destruct (Ascii.eqb a sep); simpl; lia.
Qed.

Lemma split_length sep s : List.length (split sep s) = S (count sep s).
Proof.
  unfold split. pose proof (split_aux_length sep s) as E.
  destruct (split_aux sep s) as [f fs]; simpl in *. lia.
Qed.

Lemma split_occurs sep c s :
  Ascii.eqb c sep = false -> occurs c s = true ->
  exists f, In f (split sep s) /\ occurs c f = true.
Proof.
  intros Hsep. unfold split.
  induction s as [|a s IH]; simpl; [discriminate|].
  destruct (split_aux sep s) as [f fs]; simpl in *.
  intros Hocc. destruct (Ascii.eqb a c) eqn:Eac; simpl in Hocc.
  - apply Ascii.eqb_eq in Eac; subst a. rewrite Hsep.
    exists (String c f). split; [now left|]. simpl. now rewrite Ascii.eqb_refl.
  - destruct (IH Hocc) as (g & [Hg|Hg] & Hc).
    + subst g. destruct (Ascii.eqb a sep).
      * exists f. split; [right; now left|exact Hc].
      * exists (String a f). split; [now left|]. simpl. rewrite Hc. apply orb_true_r.
    + exists g. split; [|exact Hc].
      destruct (Ascii.eqb a sep); right; [right|]; exact Hg.
Qed.

Lemma starts_with_occurs c p s :
  starts_with p s = true -> occurs c p = true -> occurs c s = true.
Proof.
  revert s; induction p as [|a p IH]; intros s; simpl; [discriminate|].
  destruct s as [|b s]; [discriminate|]. simpl.
  intros H1 H2. apply andb_true_iff in H1 as [Hab Hps].
  apply Ascii.eqb_eq in Hab; subst b.
  destruct (Ascii.eqb a c); simpl in *; [reflexivity|]. now apply IH.
Qed.

Lemma contains_occurs c sub s :
  contains sub s = true -> occurs c sub = true -> occurs c s = true.
Proof.
  intros H1 H2. induction s as [|a s IH].
  - simpl in H1. rewrite orb_false_r in H1.
    now apply (starts_with_occurs c sub EmptyString).
  - simpl in H1. apply orb_true_iff in H1 as [H1|H1].
    + now apply (starts_with_occurs c sub).
    + simpl. rewrite (IH H1). apply orb_true_r.
Qed.

Lemma lstrip_by_occurs p c s :
  p c = false -> occurs c s = true -> occurs c (lstrip_by p s) = true.
Proof.
  intros Hc. induction s as [|a s IH]; simpl; [discriminate|].
  intros H. destruct (p a) eqn:Ea.
  - apply IH. destruct (Ascii.eqb a c) eqn:Eac; [|exact H].
    apply Ascii.eqb_eq in Eac; subst a. congruence.
  - exact H.
Qed.

Lemma rstrip_by_occurs p c s :
  p c = false -> occurs c s = true -> occurs c (rstrip_by p s) = true.
Proof.
  intros Hc. induction s as [|a s IH]; simpl; [discriminate|].
  intros H. destruct (Ascii.eqb a c) eqn:Eac.
  - apply Ascii.eqb_eq in Eac; subst a.
    destruct (rstrip_by p s); [rewrite Hc|]; simpl; now rewrite Ascii.eqb_refl.
  - simpl in H. specialize (IH H).
    destruct (rstrip_by p s); [discriminate|]. simpl. simpl in IH. rewrite IH.
    apply orb_true_r.
Qed.

Lemma strip_by_occurs p c s :
  p c = false -> occurs c s = true -> occurs c (strip_by p s) = true.
Proof.
  intros Hc H. unfold strip_by. now apply rstrip_by_occurs, lstrip_by_occurs.
Qed.

Lemma is_empty_true s : is_empty s = true -> s = EmptyString.
Proof. destruct s; simpl; [reflexivity|discriminate]. Qed.

End StrFacts.

Module LitFacts.
Import PyStr StrFacts.

Section Foreign.
Variable c : ascii.
Hypothesis foreign : float_char c = false.

Lemma foreign_neq a : float_char a = true -> Ascii.eqb a c = false.
Proof.
  intros Ha. destruct (Ascii.eqb a c) eqn:E; [|reflexivity].
  apply Ascii.eqb_eq in E; subst a. congruence.
Qed.

Lemma digit_float_char a d : digit_val a = Some d -> float_char a = true.
Proof. intros E. unfold float_char. now rewrite E. Qed.

Lemma digits_tail_foreign n : forall s acc cnt,
  (String.length s <= n)%nat ->
  occurs c s = true ->
  occurs c (snd (digits_tail acc cnt s)) = true.
Proof.
  induction n as [|n IH]; intros s acc cnt Hlen Hocc.
  - destruct s; simpl in *; [discriminate|lia].
  - destruct s as [|a s]; [discriminate|]. simpl in Hlen, Hocc.
    simpl. destruct (digit_val a) as [d|] eqn:Ed.
    + rewrite (foreign_neq a (digit_float_char a d Ed)) in Hocc.
      apply IH; [lia|exact Hocc].
    + destruct (Ascii.eqb a "_") eqn:Eu; [|simpl; exact Hocc].
      destruct s as [|b s]; [simpl; exact Hocc|].
      destruct (digit_val b) as [d|] eqn:Eb; [|simpl; exact Hocc].
      apply Ascii.eqb_eq in Eu; subst a. cbn [occurs] in Hocc. simpl in Hlen.
      rewrite (foreign_neq "_" eq_refl) in Hocc.
      rewrite (foreign_neq b (digit_float_char b d Eb)) in Hocc.
      apply IH; [lia|exact Hocc].
Qed.

Lemma digitpart_foreign s acc v k rest :
  digitpart acc s = Some (v, k, rest) ->
  occurs c s = true -> occurs c rest = true.
Proof.
  unfold digitpart. destruct s as [|a s]; [discriminate|].
  destruct (digit_val a) as [d|] eqn:Ed; [|discriminate].
  intros E Hocc. injection E as E. simpl in Hocc.
  rewrite (foreign_neq a (digit_float_char a d Ed)) in Hocc.
  match type of E with
  | digits_tail ?a ?k0 _ = _ =>
      pose proof (digits_tail_foreign (String.length s) s a k0 (le_n _) Hocc) as P
  end.
  now rewrite E in P.
Qed.

Lemma opt_sign_foreign s :
  occurs c s = true -> occurs c (snd (opt_sign s)) = true.
Proof.
  destruct s as [|a s]; [discriminate|]. simpl.
  destruct (Ascii.eqb a "-") eqn:E1.
  - apply Ascii.eqb_eq in E1; subst a.
    rewrite (foreign_neq "-" eq_refl). exact (fun H => H).
  - destruct (Ascii.eqb a "+") eqn:E2; [|exact (fun H => H)].
    apply Ascii.eqb_eq in E2; subst a.
    rewrite (foreign_neq "+" eq_refl). exact (fun H => H).
Qed.

Lemma exponent_end_foreign s :
  occurs c s = true -> exponent_end s = None.
Proof.
  destruct s as [|a s]; [discriminate|]. simpl.
  destruct (Ascii.eqb a "e" || Ascii.eqb a "E") eqn:E; [|reflexivity].
  assert (Ha : float_char a = true).
  { apply orb_true_iff in E as [E|E]; apply Ascii.eqb_eq in E; now subst a. }
  rewrite (foreign_neq a Ha). simpl. intros Hocc.
  apply opt_sign_foreign in Hocc.
  destruct (opt_sign s) as [neg s1]; simpl in Hocc.
  destruct (digitpart 0 s1) as [[[v k] rest]|] eqn:Ed; [|reflexivity].
  apply (digitpart_foreign _ _ _ _ _ Ed) in Hocc.
  destruct rest; [discriminate|reflexivity].
Qed.

Lemma floatnumber_foreign s :
  occurs c s = true -> floatnumber s = None.
Proof.
  intros Hocc. unfold floatnumber.
  assert (Hdot : Ascii.eqb "." c = false) by (apply foreign_neq; reflexivity).
  assert (Hfrac : forall acc rest1,
             occurs c rest1 = true ->
             match digitpart acc rest1 with
             | Some (m, k, rest2) =>
                 option_map (fun e => (m, (e - Z.of_nat k)%Z)) (exponent_end rest2)
             | None => option_map (fun e => (acc, e)) (exponent_end rest1)
             end = None).
  { intros acc rest1 H1.
    destruct (digitpart acc rest1) as [[[m k] rest2]|] eqn:Ed.
    - apply (digitpart_foreign _ _ _ _ _ Ed) in H1.
      now rewrite (exponent_end_foreign _ H1).
    - now rewrite (exponent_end_foreign _ H1). }
  destruct (digitpart 0 s) as [[[ip k0] rest]|] eqn:Ed.
  - apply (digitpart_foreign _ _ _ _ _ Ed) in Hocc.
    destruct rest as [|a rest1]; [discriminate|].
    destruct (Ascii.eqb a ".") eqn:Ea.
    + apply Ascii.eqb_eq in Ea; subst a. cbn [occurs] in Hocc.
      rewrite Hdot in Hocc. cbn [orb] in Hocc.
      apply (Hfrac ip) in Hocc. exact Hocc.
    + rewrite (exponent_end_foreign _ Hocc).
      destruct a as [[] [] [] [] [] [] [] []]; try reflexivity; discriminate.
  - destruct s as [|a rest1]; [reflexivity|].
    destruct (Ascii.eqb a ".") eqn:Ea.
    + apply Ascii.eqb_eq in Ea; subst a. cbn [occurs] in Hocc.
      rewrite Hdot in Hocc. cbn [orb] in Hocc.
      destruct (digitpart 0 rest1) as [[[m k] rest2]|] eqn:Ed2; [|reflexivity].
      apply (digitpart_foreign _ _ _ _ _ Ed2) in Hocc.
      now rewrite (exponent_end_foreign _ Hocc).
    + destruct a as [[] [] [] [] [] [] [] []]; try reflexivity; discriminate.
Qed.

Lemma lowercase_occurs s :
  occurs c s = true -> exists a, occurs a (lowercase s) = true /\ a = lower c.
Proof.
  induction s as [|b s IH]; simpl; [discriminate|].
  intros H. exists (lower c). split; [|reflexivity].
  destruct (Ascii.eqb b c) eqn:E.
  - apply Ascii.eqb_eq in E; subst b. now rewrite Ascii.eqb_refl.
  - simpl in H. destruct (IH H) as (a & Ha & ->). rewrite Ha. apply orb_true_r.
Qed.

Lemma lower_not_name_char :
  existsb (Ascii.eqb (lower c)) [ "i"; "n"; "f"; "t"; "y"; "a" ]%char = false.
Proof.
  unfold float_char in foreign.
  destruct (digit_val c); [discriminate|].
  now apply orb_false_iff in foreign as [_ ?].
Qed.

Lemma floatvalue_foreign s :
  occurs c s = true -> floatvalue s = None.
Proof.
  intros Hocc. unfold floatvalue.
  apply opt_sign_foreign in Hocc.
  destruct (opt_sign s) as [neg body]; simpl in Hocc.
  destruct (lowercase_occurs body Hocc) as (a & Ha & ->).
  pose proof lower_not_name_char as Hn. simpl in Hn.
  repeat (apply orb_false_iff in Hn; destruct Hn as [? Hn]).
  assert (Hname : forall name,
             forallb (fun x => existsb (Ascii.eqb x)
               [ "i"; "n"; "f"; "t"; "y"; "a" ]%char)
               (list_ascii_of_string name) = true ->
             occurs (lower c) name = false).
  { induction name as [|x name IHn]; simpl; [reflexivity|].
    intros Hall. apply andb_true_iff in Hall as [Hx Hall].
    rewrite (IHn Hall), orb_false_r.
    repeat (apply orb_true_iff in Hx; destruct Hx as [Hx|Hx]);
      try discriminate; apply Ascii.eqb_eq in Hx; subst x;
      rewrite Ascii.eqb_sym; assumption. }
  destruct (String.eqb (lowercase body) "inf") eqn:E1.
  { apply String.eqb_eq in E1. rewrite E1 in Ha.
    rewrite (Hname "inf" eq_refl) in Ha. discriminate. }
  destruct (String.eqb (lowercase body) "infinity") eqn:E2.
  { apply String.eqb_eq in E2. rewrite E2 in Ha.
    rewrite (Hname "infinity" eq_refl) in Ha. discriminate. }
  destruct (String.eqb (lowercase body) "nan") eqn:E3.
  { apply String.eqb_eq in E3. rewrite E3 in Ha.
    rewrite (Hname "nan" eq_refl) in Ha. discriminate. }
  simpl. now rewrite (floatnumber_foreign body Hocc).
Qed.

Hypothesis not_space : float_space c = false.

Lemma parse_foreign s : occurs c s = true -> parse s = None.
Proof.
  intros Hocc. unfold parse. apply floatvalue_foreign.
  now apply strip_by_occurs.
Qed.

End Foreign.

End LitFacts.

(* ===================================================================== *)
(** ** Facts about the embedded functions *)
(* ===================================================================== *)

Section FloatFacts.
Context {F : Type} `{PyFloat F}.
Import PyStr StrFacts LitFacts.

Lemma py_float_foreign c s :
  float_char c = false -> float_space c = false -> occurs c s = true ->
  py_float s = None.
Proof.
  intros Hc Hs Ho. unfold py_float. now rewrite (parse_foreign c Hc Hs s Ho).
Qed.

Lemma floats_rejected v values :
  In v values -> py_float v = None -> floats values = None.
Proof.
  induction values as [|a values IH]; simpl; [tauto|].
  intros [->|Hin] Hv.
  - now rewrite Hv.
  - destruct (py_float a); [|reflexivity]. now rewrite (IH Hin Hv).
Qed.

Lemma floats_length values xs :
  floats values = Some xs -> List.length xs = List.length values.
Proof.
  revert xs; induction values as [|a values IH]; simpl; intros xs E.
  - now injection E as <-.
  - destruct (py_float a); [|discriminate].
    destruct (floats values) as [ys|]; [|discriminate].
    injection E as <-. simpl. now rewrite (IH ys eq_refl).
Qed.

Lemma floats_foreign c line :
  float_char c = false -> float_space c = false -> Ascii.eqb c comma = false ->
  occurs c line = true -> floats (fields line) = None.
Proof.
  intros Hc Hs Hsep Ho.
  destruct (split_occurs comma c line Hsep Ho) as (f & Hin & Hf).
  apply (floats_rejected f); [exact Hin|]. now apply (py_float_foreign c).
Qed.

Lemma floats_malformed arity line :
  malformed arity line -> List.length (fields line) = arity ->
  floats (fields line) = None.
Proof.
  intros [->|[Hn|(v & Hin & Hv)]] Hlen.
  - reflexivity.
  - contradiction.
  - now apply (floats_rejected v).
Qed.

Lemma four_floats_floats line :
  four_floats line =
  match floats (fields line) with
  | Some [x; y; z; w] => Some (x, y, z, w)
  | _ => None
  end.
Proof.
  unfold four_floats.
  destruct (fields line) as [|a [|b [|c [|d [|e l]]]]]; simpl; try reflexivity.
  - destruct (py_float a); reflexivity.
  - destruct (py_float a), (py_float b); reflexivity.
  - destruct (py_float a), (py_float b), (py_float c); reflexivity.
  - destruct (py_float a), (py_float b), (py_float c), (py_float d); reflexivity.
  - destruct (py_float a), (py_float b), (py_float c), (py_float d),
      (py_float e); try reflexivity.
    destruct (floats l); reflexivity.
Qed.

Lemma five_floats_floats line :
  five_floats line =
  match floats (fields line) with
  | Some [x; y; z; w; v] => Some (x, y, z, w, v)
  | _ => None
  end.
Proof.
  unfold five_floats.
  destruct (fields line) as [|a [|b [|c [|d [|e [|g l]]]]]]; simpl; try reflexivity.
  - destruct (py_float a); reflexivity.
  - destruct (py_float a), (py_float b); reflexivity.
  - destruct (py_float a), (py_float b), (py_float c); reflexivity.
  - destruct (py_float a), (py_float b), (py_float c), (py_float d); reflexivity.
  - destruct (py_float a), (py_float b), (py_float c), (py_float d),
      (py_float e); reflexivity.
  - destruct (py_float a), (py_float b), (py_float c), (py_float d),
      (py_float e), (py_float g); try reflexivity.
    destruct (floats l); reflexivity.
Qed.

Lemma fields_empty : fields EmptyString = [EmptyString].
Proof. reflexivity. Qed.

End FloatFacts.

Section DictFacts.
Context {F : Type} `{PyFloat F} {P : Type}.


Lemma extends_refl {A : Type} (l : list A) : extends l l.
Proof. exists []. now rewrite app_nil_r. Qed.

Lemma extends_trans {A : Type} (l1 l2 l3 : list A) :
  extends l1 l2 -> extends l2 l3 -> extends l1 l3.
Proof. intros [a ->] [b ->]. exists (a ++ b). now rewrite app_assoc. Qed.

Lemma extends_snoc {A : Type} (l : list A) x : extends l (l ++ [x]).
Proof. now exists [x]. Qed.




Lemma dict_extends_refl (d : dict F P) : dict_extends d d.
Proof.
  induction d as [|[k g] d IH]; simpl; [exact I|].
  repeat split; [apply extends_refl|exact IH].
Qed.

Lemma dict_extends_trans (d1 d2 d3 : dict F P) :
  dict_extends d1 d2 -> dict_extends d2 d3 -> dict_extends d1 d3.
Proof.
  revert d2 d3; induction d1 as [|[k1 g1] d1 IH]; intros d2 d3; simpl; [tauto|].
  destruct d2 as [|[k2 g2] d2]; [tauto|].
  destruct d3 as [|[k3 g3] d3]; simpl; [tauto|].
  intros (-> & E12 & H12) (-> & E23 & H23). repeat split.
  - now apply (extends_trans g1 g2 g3).
  - now apply (IH d2 d3).
Qed.

Lemma dict_extends_append (d : dict F P) k p :
  dict_extends d (dict_append d k p).
Proof.
  induction d as [|[k0 g] d IH]; simpl; [exact I|].
  destruct (feqb k0 k); simpl; repeat split.
  - apply extends_snoc.
  - apply dict_extends_refl.
  - apply extends_refl.
  - exact IH.
Qed.

End DictFacts.

Section MonitorFacts.
Context {F : Type} `{PyFloat F}.
Import PyStr StrFacts.

Lemma monitor_on_line pts raw :
  fst (Monitor.on_line pts raw)
  = pts ++ match four_floats (strip raw) with Some m => [m] | None => [] end.
Proof.
  unfold Monitor.on_line. rewrite four_floats_floats. unfold fields.
  destruct (is_empty (strip raw)) eqn:Ee.
  - apply is_empty_true in Ee. rewrite Ee. simpl. now rewrite app_nil_r.
  - destruct (List.length (split comma (strip raw)) =? 4)%nat eqn:El.
    + destruct (floats (split comma (strip raw)))
        as [[|x [|y [|z [|w [|v l]]]]]|]; simpl;
        try rewrite app_nil_r; reflexivity.
    + apply Nat.eqb_neq in El.
      destruct (floats (split comma (strip raw)))
        as [[|x [|y [|z [|w [|v l]]]]]|] eqn:Ef; simpl;
        try rewrite app_nil_r; try reflexivity.
      apply floats_length in Ef. simpl in Ef. congruence.
Qed.

Lemma monitor_on_line_report pts raw :
  snd (Monitor.on_line pts raw) = []
  \/ snd (Monitor.on_line pts raw) = [Monitor.ErrorParsingLine (strip raw)]
  \/ exists m, four_floats (strip raw) = Some m
               /\ snd (Monitor.on_line pts raw) = [Monitor.Received m].
Proof.
  unfold Monitor.on_line. rewrite four_floats_floats. unfold fields.
  destruct (is_empty (strip raw)); [now left|].
  destruct (List.length (split comma (strip raw)) =? 4)%nat; [|now left].
  destruct (floats (split comma (strip raw)))
    as [[|x [|y [|z [|w [|v l]]]]]|]; simpl; auto.
  right; right. now exists (x, y, z, w).
Qed.

Lemma monitor_read_loop_inputs evs : forall pts evs',
  forallb is_input evs = true ->
  Monitor.read_loop pts (evs ++ evs') = Monitor.read_loop (pts ++ accepted4 evs) evs'.
Proof.
  induction evs as [|ev evs IH]; intros pts evs' Hq; simpl.
  - now rewrite app_nil_r.
  - simpl in Hq. apply andb_true_iff in Hq as [Hev Hq].
    destruct ev; try discriminate.
    + now apply IH.
    + rewrite (IH _ _ Hq), monitor_on_line, <- app_assoc. reflexivity.
Qed.

Lemma monitor_running evs pts :
  forallb is_input evs = true ->
  Monitor.read_loop pts evs = Running (pts ++ accepted4 evs).
Proof.
  intros Hq. rewrite <- (app_nil_r evs) at 1.
  now rewrite monitor_read_loop_inputs.
Qed.

(** *** serialmonitor2.py *)

Lemma any_in_empty_boot : any_in Monitor2.boot_messages EmptyString = false.
Proof. reflexivity. Qed.

Lemma is_valid_data_line_data5 line :
  Monitor2.is_valid_data_line line = true ->
  any_in Monitor2.boot_messages line = false
  /\ exists x y z w v, floats (fields line) = Some [x; y; z; w; v].
Proof.
  unfold Monitor2.is_valid_data_line, fields.
  destruct (any_in Monitor2.boot_messages line); [discriminate|].
  destruct (List.length (split comma line) =? 5)%nat eqn:El; [|discriminate].
  apply Nat.eqb_eq in El.
  destruct (floats (split comma line)) as [xs|] eqn:Ef; [|discriminate].
  intros _. split; [reflexivity|].
  apply floats_length in Ef. rewrite El in Ef.
  destruct xs as [|x [|y [|z [|w [|v [|u l]]]]]]; try discriminate.
  now exists x, y, z, w, v.
Qed.

Lemma is_valid_data_line_false line :
  Monitor2.is_valid_data_line line = false ->
  (if any_in Monitor2.boot_messages line then None else five_floats line)
  = @None (F * F * F * F * F).
Proof.
  unfold Monitor2.is_valid_data_line. rewrite five_floats_floats. unfold fields.
  destruct (any_in Monitor2.boot_messages line); [reflexivity|].
  destruct (List.length (split comma line) =? 5)%nat eqn:El.
  - destruct (floats (split comma line)); [discriminate|reflexivity].
  - intros _. apply Nat.eqb_neq in El.
    destruct (floats (split comma line))
      as [[|x [|y [|z [|w [|v [|u l]]]]]]|] eqn:Ef; try reflexivity.
    apply floats_length in Ef. simpl in Ef. congruence.
Qed.

Lemma monitor2_on_line st raw :
  fst (Monitor2.on_line st raw)
  = match data5 raw with Some t => store_tuple st t | None => st end.
Proof.
  unfold Monitor2.on_line, data5.
  destruct (is_empty (strip raw)) eqn:Ee; cbn [orb negb fst].
  - apply is_empty_true in Ee. rewrite Ee. reflexivity.
  - destruct (Monitor2.is_valid_data_line (strip raw)) eqn:Ev; cbn [orb negb fst].
    + destruct (is_valid_data_line_data5 _ Ev) as (Hb & x & y & z & w & v & Ef).
      rewrite Hb, five_floats_floats. unfold fields in *. rewrite Ef. reflexivity.
    + now rewrite (is_valid_data_line_false _ Ev).
Qed.

Lemma monitor2_read_loop_inputs evs : forall st evs',
  forallb is_input evs = true ->
  Monitor2.read_loop st (evs ++ evs')
  = Monitor2.read_loop (fold_left store_tuple (accepted5 evs) st) evs'.
Proof.
  induction evs as [|ev evs IH]; intros st evs' Hq; simpl; [reflexivity|].
  simpl in Hq. apply andb_true_iff in Hq as [Hev Hq].
  destruct ev; try discriminate.
  - now apply IH.
  - rewrite (IH _ _ Hq), monitor2_on_line, fold_left_app.
    destruct (data5 raw); reflexivity.
Qed.


(** The events before the one that ends the loop, if any. *)
Lemma inputs_prefix evs :
  exists pre post, evs = pre ++ post /\ forallb is_input pre = true
                   /\ match post with
                      | [] | Interrupt :: _ | Fault :: _ => True
                      | _ => False
                      end.
Proof.
  induction evs as [|ev evs (pre & post & -> & Hq & Hp)].
  - now exists [], [].
  - destruct ev.
    + exists (NoData :: pre), post. simpl. now rewrite Hq.
    + exists (Line raw :: pre), post. simpl. now rewrite Hq.
    + now exists [], (Interrupt :: pre ++ post).
    + now exists [], (Fault :: pre ++ post).
Qed.


Lemma grows_refl (st : Monitor2.scan F) : grows st st.
Proof.
  repeat split; try apply extends_refl. apply dict_extends_refl.
Qed.

Lemma grows_trans (st1 st2 st3 : Monitor2.scan F) : grows st1 st2 -> grows st2 st3 -> grows st1 st3.
Proof.
  intros (A1 & B1 & C1) (A2 & B2 & C2). repeat split.
  - eapply extends_trans; eassumption.
  - eapply extends_trans; eassumption.
  - eapply dict_extends_trans; eassumption.
Qed.

Lemma grows_store (st : Monitor2.scan F) t : grows st (store_tuple st t).
Proof.
  destruct t as [[[[x y] z] w] v]. repeat split; simpl.
  - apply extends_snoc.
  - apply extends_snoc.
  - apply dict_extends_append.
Qed.

Lemma grows_fold ts : forall st : Monitor2.scan F, grows st (fold_left store_tuple ts st).
Proof.
  induction ts as [|t ts IH]; intros st; simpl; [apply grows_refl|].
  eapply grows_trans; [apply grows_store|apply IH].
Qed.




(** Whatever the events, a state the capture reaches is built from the
    empty one by storing the accepted tuples in order. *)
Lemma monitor2_collected evs st :
  collected (Monitor2.read_scanner_data evs) = Some st ->
  exists pre post, evs = pre ++ post /\ forallb is_input pre = true
                   /\ st = fold_left store_tuple (accepted5 pre) Monitor2.empty_scan.
Proof.
  destruct (inputs_prefix evs) as (pre & post & -> & Hq & Hp).
  unfold Monitor2.read_scanner_data.
  rewrite (monitor2_read_loop_inputs pre _ post Hq).
  intros E. exists pre, post. repeat split; [exact Hq|].
  destruct post as [|[] post]; simpl in *; try contradiction; congruence.
Qed.

End MonitorFacts.

Section LoopFacts.
Context {F : Type} `{PyFloat F}.
Import PyStr StrFacts LitFacts.




Lemma bang_foreign :
  float_char "!" = false /\ float_space "!" = false /\ Ascii.eqb "!" comma = false.
Proof. repeat split. Qed.

Lemma scan_complete_not_data line :
  contains "Scan complete!" line = true ->
  Monitor2.is_valid_data_line (F:=F) line = false.
Proof.
  intros Hc. unfold Monitor2.is_valid_data_line.
  destruct (any_in Monitor2.boot_messages line); [reflexivity|].
  destruct bang_foreign as (B1 & B2 & B3).
  assert (Ho : occurs "!" line = true)
    by (apply (contains_occurs "!" "Scan complete!" line Hc); reflexivity).
  pose proof (floats_foreign "!" line B1 B2 B3 Ho) as Ef. unfold fields in Ef.
  rewrite Ef. now destruct (_ =? _)%nat.
Qed.

Lemma boot_message_not_data line :
  any_in Monitor2.boot_messages line = true ->
  Monitor2.is_valid_data_line (F:=F) line = false.
Proof. intros Hb. unfold Monitor2.is_valid_data_line. now rewrite Hb. Qed.

Lemma malformed_not_data line :
  malformed 5 line -> Monitor2.is_valid_data_line (F:=F) line = false.
Proof.
  intros Hm. unfold Monitor2.is_valid_data_line.
  destruct (any_in Monitor2.boot_messages line); [reflexivity|].
  destruct (List.length (split comma line) =? 5)%nat eqn:El; [|reflexivity].
  apply Nat.eqb_eq in El.
  pose proof (floats_malformed 5 line Hm El) as Ef. unfold fields in Ef.
  now rewrite Ef.
Qed.

Lemma monitor2_skip (st : Monitor2.scan F) raw :
  Monitor2.is_valid_data_line (F:=F) (strip raw) = false ->
  Monitor2.on_line st raw = (st, Monitor2.status_of (strip raw)).
Proof.
  intros E. unfold Monitor2.on_line. rewrite E. cbn [negb]. now rewrite orb_true_r.
Qed.

Lemma vis4_malformed (self : Vis4.visualizer F) raw :
  Vis4.ser self = true ->
  any_in Vis4.init_messages (strip raw) = false ->
  contains "Scan complete" (strip raw) = false ->
  malformed 3 (strip raw) ->
  Vis4.read_data self (Got raw) = (self, true, [Vis4.Echo (strip raw)]).
Proof.
  intros Hser Hinit Hdone Hm. unfold Vis4.read_data.
  rewrite Hser, Hinit, Hdone. cbn [negb].
  destruct (count comma (strip raw) =? 2)%nat eqn:Ec; [|reflexivity].
  apply Nat.eqb_eq in Ec.
  assert (El : List.length (fields (strip raw)) = 3%nat)
    by (unfold fields; rewrite split_length, Ec; reflexivity).
  pose proof (floats_malformed 3 _ Hm El) as Ef. unfold fields in Ef.
  now rewrite Ef.
Qed.

End LoopFacts.

Section ReaderFacts.
Context {F : Type} `{PyFloat F}.
Variable py_eval : string -> option (list F).

Lemma from_raw_some values m :
  Conv.from_raw values = Some m ->
  exists x y z w v, values = [x; y; z; w; v].
Proof.
  destruct values as [|x [|y [|z [|w [|v [|u l]]]]]]; try discriminate.
  intros _. now exists x, y, z, w, v.
Qed.

Lemma read_line_reading pts l st' :
  Conv.read_line py_eval (true, pts) l = Some st' ->
  fst st' = true
  /\ (tuple_line l = true -> well_formed py_eval l)
  /\ exists ms, snd st' = pts ++ ms
                /\ List.length ms = (if tuple_line l then 1 else 0)%nat.
Proof.
  unfold Conv.read_line, tuple_line.
  destruct (line_contains_marker "=== Raw Data" l); cbn [negb andb].
  - intros [= <-]. repeat split; [discriminate|].
    exists []. now rewrite app_nil_r.
  - destruct (line_nonblank l && line_has_comma l) eqn:E.
    + destruct (Conv.line_eval py_eval l) as [values|] eqn:Ev; [|discriminate].
      destruct (Conv.from_raw values) as [m|] eqn:Em; [|discriminate].
      intros [= <-]. repeat split.
      * intros _. destruct (from_raw_some _ _ Em) as (x & y & z & w & v & ->).
        now exists x, y, z, w, v.
      * now exists [m].
    + intros [= <-]. repeat split; [discriminate|].
      exists []. now rewrite app_nil_r.
Qed.

Lemma read_lines_invalid lines : forall pts,
  (exists l, In l lines /\ tuple_line l = true /\ ~ well_formed py_eval l) ->
  Conv.read_lines py_eval (true, pts) lines = None.
Proof.
  induction lines as [|l0 lines IH]; intros pts (l & Hin & Ht & Hbad);
    [destruct Hin|]. cbn [Conv.read_lines].
  destruct (Conv.read_line py_eval (true, pts) l0) as [[b pts']|] eqn:E;
    [|reflexivity].
  destruct (read_line_reading _ _ _ E) as (Hb & Hwf & _). simpl in Hb; subst b.
  apply IH. exists l. repeat split; try assumption.
  destruct Hin as [->|Hin]; [|exact Hin]. now destruct Hbad; apply Hwf.
Qed.

Lemma read_lines_before_marker lines : forall pts,
  (exists l, In l (raw_section lines) /\ tuple_line l = true
             /\ ~ well_formed py_eval l) ->
  Conv.read_lines py_eval (false, pts) lines = None.
Proof.
  induction lines as [|l0 lines IH]; intros pts Hbad;
    cbn [Conv.read_lines raw_section] in *.
  - now destruct Hbad as (l & [] & _).
  - unfold Conv.read_line.
    destruct (line_contains_marker "=== Raw Data" l0).
    + now apply read_lines_invalid.
    + cbn [andb]. now apply IH.
Qed.






End ReaderFacts.

Section SavedFile.
Context {F : Type} `{PyFloat F}.
Variable py_eval : string -> option (list F).

Lemma read_lines_skip pre : forall rest pts,
  forallb no_marker pre = true ->
  Conv.read_lines py_eval (false, pts) (pre ++ rest)
  = Conv.read_lines py_eval (false, pts) rest.
Proof.
  induction pre as [|l pre IH]; intros rest pts Hpre; [reflexivity|].
  cbn [forallb] in Hpre. apply andb_true_iff in Hpre as [Hl Hpre].
  cbn [app Conv.read_lines]. unfold Conv.read_line, no_marker in *.
  destruct (line_contains_marker "=== Raw Data" l); [discriminate|].
  cbn [andb]. now apply IH.
Qed.

Lemma read_lines_raw rd : forall pts,
  forallb finite_tuple rd = true ->
  Conv.read_lines py_eval (true, pts) (map Monitor2.raw_line rd)
  = Some (true, pts ++ map rebuilt rd).
Proof.
  induction rd as [|t rd IH]; intros pts Hfin.
  - cbn. now rewrite app_nil_r.
  - cbn [forallb] in Hfin. apply andb_true_iff in Hfin as [Ht Hfin].
    destruct t as [[[[x y] z] w] v]. unfold finite_tuple in Ht.
    cbn [map Monitor2.raw_line Conv.read_lines].
    unfold Conv.read_line.
    cbn [line_contains_marker line_nonblank line_has_comma List.length
         Nat.eqb negb andb Conv.line_eval].
    rewrite Ht. cbn [Conv.from_raw].
    rewrite (IH _ Hfin), <- app_assoc. reflexivity.
Qed.

Lemma point_lines_no_marker (ps : list (Monitor2.point F)) :
  forallb no_marker (map Monitor2.point_line ps) = true.
Proof.
  induction ps as [|[[x y] z] ps IH]; [reflexivity|exact IH].
Qed.

Lemma group_lines_no_marker (d : dict F (Monitor2.point F)) :
  forallb no_marker
    (flat_map (fun e => [Text ""; AngleHeading (fst e)]
                        ++ map Monitor2.point_line (snd e)) d) = true.
Proof.
  induction d as [|e d IH]; [reflexivity|].
  cbn [flat_map]. rewrite forallb_app, IH, andb_true_r.
  cbn [app forallb]. rewrite point_lines_no_marker. reflexivity.
Qed.

(** Reading back a file written by [save_data_to_file]: one rebuilt sample
    per raw tuple, when every number of the raw log is finite. *)
Lemma saved_file_read_back pl pba rd :
  forallb finite_tuple rd = true ->
  Conv.read_points_from_file py_eval
    (Content (Monitor2.save_data_to_file pl pba rd))
  = (map rebuilt rd, []).
Proof.
  intros Hfin. unfold Conv.read_points_from_file, Monitor2.save_data_to_file.
  rewrite !app_assoc.
  rewrite <- (app_assoc _ [Text ""; Text "=== Raw Data (x, y, z, vertical_angle, vertical_distance) ==="]).
  change ([Text (F:=F) ""; Text "=== Raw Data (x, y, z, vertical_angle, vertical_distance) ==="]
          ++ map Monitor2.raw_line rd)
    with ([Text (F:=F) ""]
          ++ Text "=== Raw Data (x, y, z, vertical_angle, vertical_distance) ==="
             :: map Monitor2.raw_line rd).
  rewrite app_assoc, read_lines_skip.
  - cbn [Conv.read_lines].
    change (Conv.read_line py_eval (false, [])
              (Text "=== Raw Data (x, y, z, vertical_angle, vertical_distance) ==="))
      with (Some (true, @nil (Conv.measurement F))).
    cbv beta iota. now rewrite (read_lines_raw rd [] Hfin).
  - rewrite !forallb_app, point_lines_no_marker, group_lines_no_marker.
    reflexivity.
Qed.

End SavedFile.

Section VisFacts.
Context {F : Type} `{PyFloat F}.

Lemma vis4_run_stopped (self : Vis4.visualizer F) ps :
  Vis4.scanning self = false -> Vis4.run self ps = (self, ps).
Proof. intros E. destruct ps; simpl; [reflexivity|now rewrite E]. Qed.

End VisFacts.

(* ===================================================================== *)
(** ** Exact arithmetic: evaluation of the conversions *)
(* ===================================================================== *)

Module IdealFacts.
Import Ideal.
Local Open Scope R_scope.

Lemma deg_0 : 0 * (PI / 180) = 0.
Proof. lra. Qed.
Lemma deg_90 : 90 * (PI / 180) = PI / 2.
Proof. lra. Qed.
Lemma deg_180 : 180 * (PI / 180) = PI.
Proof. lra. Qed.
Lemma deg_270 : 270 * (PI / 180) = 3 * (PI / 2).
Proof. lra. Qed.

Lemma tolerance_pos : 0 < tolerance.
Proof. unfold tolerance. apply Rinv_0_lt_compat. lra. Qed.

Lemma tolerance_small : tolerance < 1.
Proof.
  unfold tolerance. rewrite <- Rinv_1. apply Rinv_lt_contravar; lra.
Qed.

Lemma close_eq x y : x = y -> close tolerance (Fin x) (Fin y).
Proof.
  intros ->. simpl. replace (y - y) with 0 by lra. rewrite Rabs_R0.
  apply Rlt_le, tolerance_pos.
Qed.

Lemma positive_true x : 0 < x -> positive x = true.
Proof. intros Hx. unfold positive. now destruct (Rlt_dec 0 x). Qed.

Lemma negative_false x : 0 <= x -> negative x = false.
Proof. intros Hx. unfold negative. destruct (Rlt_dec x 0); [lra|reflexivity]. Qed.

(** A point on the positive x axis has angle zero. *)
Lemma atan2_x_axis x : 0 < x -> atan2 0 x = 0.
Proof.
  intros Hx. unfold atan2. rewrite (positive_true x Hx).
  replace (0 / x) with 0 by (unfold Rdiv; ring). apply atan_0.
Qed.

Lemma from_raw_x_axis x z va vd :
  0 < x ->
  Conv.from_raw [Fin x; Fin 0; Fin z; Fin va; Fin vd]
  = Some (Fin vd, Fin 0, Fin va, Fin z).
Proof.
  intros Hx. unfold Conv.from_raw. cbn -[atan2 PI].
  rewrite (atan2_x_axis x Hx).
  replace (0 * (180 / PI)) with 0 by (unfold Rdiv; ring).
  destruct (Rlt_dec 0 (0 * 1)) as [Hlt|_]; [lra|reflexivity].
Qed.

Lemma to_cartesian_x_axis d h va :
  Conv.to_cartesian (Fin d, Fin 0, va, Fin h) = (Fin d, Fin 0, Fin h).
Proof.
  unfold Conv.to_cartesian. cbn -[PI Rtrigo_def.cos Rtrigo_def.sin].
  rewrite deg_0, cos_0, sin_0. repeat f_equal; ring.
Qed.

End IdealFacts.
Module ScenarioFacts.
Import Ideal IdealFacts Scenarios.
Local Open Scope R_scope.

Ltac lit_eq := unfold lit, num; f_equal; simpl; lra.

Lemma lit_0 : lit (LitDec false 0 0) = num 0. Proof. lit_eq. Qed.
Lemma lit_50 : lit (LitDec false 50 0) = num 50. Proof. lit_eq. Qed.
Lemma lit_80 : lit (LitDec false 80 0) = num 80. Proof. lit_eq. Qed.
Lemma lit_90 : lit (LitDec false 90 0) = num 90. Proof. lit_eq. Qed.
Lemma lit_100 : lit (LitDec false 100 0) = num 100. Proof. lit_eq. Qed.
Lemma lit_150 : lit (LitDec false 150 0) = num 150. Proof. lit_eq. Qed.
Lemma lit_180 : lit (LitDec false 180 0) = num 180. Proof. lit_eq. Qed.
Lemma lit_270 : lit (LitDec false 270 0) = num 270. Proof. lit_eq. Qed.
Lemma lit_0_0 : lit (LitDec false 0 (-1)) = num 0. Proof. lit_eq. Qed.
Lemma lit_1_0 : lit (LitDec false 10 (-1)) = num 1. Proof. lit_eq. Qed.
Lemma lit_2_0 : lit (LitDec false 20 (-1)) = num 2. Proof. lit_eq. Qed.
Lemma lit_5_0 : lit (LitDec false 50 (-1)) = num 5. Proof. lit_eq. Qed.
Lemma lit_45_0 : lit (LitDec false 450 (-1)) = num 45. Proof. lit_eq. Qed.

Ltac lits :=
  rewrite ?lit_0, ?lit_50, ?lit_80, ?lit_90, ?lit_100, ?lit_150, ?lit_180,
    ?lit_270, ?lit_0_0, ?lit_1_0, ?lit_2_0, ?lit_5_0, ?lit_45_0.

Lemma scenario_a_parsed :
  Monitor.read_serial_data (map Line scenario_a_lines ++ [Interrupt])
  = Returned scenario_a_samples.
Proof. cbv -[lit num]. lits. reflexivity. Qed.

Lemma scenario_a_converted :
  Forall2 (close_point tolerance)
          (Conv.convert_to_cartesian scenario_a_samples) scenario_a_points.
Proof.
  unfold Conv.convert_to_cartesian. rewrite fold_append_map.
  unfold scenario_a_samples, scenario_a_points, num.
  cbn -[PI Rtrigo_def.cos Rtrigo_def.sin tolerance].
  rewrite deg_0, deg_90, deg_180, deg_270.
  rewrite cos_0, sin_0, cos_PI2, sin_PI2, cos_PI, sin_PI, cos_3PI2, sin_3PI2.
  repeat first [apply Forall2_nil | apply Forall2_cons];
    repeat split; apply close_eq; lra.
Qed.

Lemma axis_sample_captured :
  Monitor2.read_scanner_data [Line axis_sample_line; Interrupt]
  = Returned (store_tuple Monitor2.empty_scan axis_sample).
Proof. cbv -[lit num]. lits. reflexivity. Qed.

Lemma axis_sample_saved :
  Monitor2.main [Line axis_sample_line; Interrupt]
  = Some ([ Text "=== 3D Points (x, y, z) ===";
            TupleRepr [num 1; num 0; num 5];
            Text "";
            Text "=== Points by Vertical Angle ===";
            Text "";
            AngleHeading (num 45);
            TupleRepr [num 1; num 0; num 5];
            Text "";
            Text "=== Raw Data (x, y, z, vertical_angle, vertical_distance) ===";
            TupleRepr [num 1; num 0; num 5; num 45; num 2] ]).
Proof. cbv -[lit num]. lits. reflexivity. Qed.

Lemma axis_sample_evaluated :
  Conv.line_eval TupleDisplay.eval (Text "(1.0, 0.0, 5.0, 45.0, 2.0)")
  = Some [num 1; num 0; num 5; num 45; num 2].
Proof. cbv -[lit num]. lits. reflexivity. Qed.

End ScenarioFacts.

(* ===================================================================== *)
(** ** The order of the tests on a line *)
(* ===================================================================== *)

Section OrderFacts.
Context {F : Type} `{PyFloat F}.
Import PyStr StrFacts.

Lemma looks_no_parse phrases line v : ~ In (Parse v) (Order.looks phrases line).
Proof.
  induction phrases as [|p ps IH]; cbn [Order.looks]; [easy|].
  intros [E|Hin]; [discriminate|].
  destruct (contains p line); [easy|now apply IH].
Qed.

Lemma any_in_false msgs line msg :
  any_in msgs line = false -> In msg msgs -> contains msg line = false.
Proof.
  unfold any_in. intros He Hin.
  destruct (contains msg line) eqn:Ec; [|reflexivity].
  assert (Ht : existsb (fun m => contains m line) msgs = true)
    by (apply existsb_exists; eauto).
  congruence.
Qed.

Lemma status_of_silent line :
  Monitor2.status_of (F:=F) line = []
  <-> any_in Order.status_phrases line = false.
Proof.
  unfold Monitor2.status_of, any_in, Order.status_phrases. cbn [existsb].
  destruct (contains "Starting full 3D scan" line),
    (contains "Scan complete!" line),
    (contains "Scanning at vertical angle" line);
    cbn [orb]; split; intros E; try discriminate E; reflexivity.
Qed.

Lemma order_on_line_skipped raw :
  is_empty (strip raw) = false ->
  Monitor2.is_valid_data_line (F:=F) (strip raw) = false ->
  Order.on_line (F:=F) raw
  = Order.is_valid_data_line (F:=F) (strip raw)
    ++ Order.looks Order.status_phrases (strip raw).
Proof. intros Ee Ev. unfold Order.on_line. now rewrite Ee, Ev. Qed.

Lemma order_boot_no_parse raw v :
  any_in Monitor2.boot_messages (strip raw) = true ->
  ~ In (Parse v) (Order.on_line (F:=F) raw).
Proof.
  intros Hb. unfold Order.on_line.
  destruct (is_empty (strip raw)); [apply looks_no_parse|].
  rewrite (boot_message_not_data _ Hb).
  unfold Order.is_valid_data_line. rewrite Hb, app_nil_r.
  intros Hin. apply in_app_or in Hin as [Hin|Hin];
    exact (looks_no_parse _ _ _ Hin).
Qed.

Lemma order_scan_complete raw :
  any_in Monitor2.boot_messages (strip raw) = false ->
  contains "Scan complete!" (strip raw) = true ->
  Order.on_line (F:=F) raw
  = Order.is_valid_data_line (F:=F) (strip raw)
    ++ [Look "Starting full 3D scan"; Look "Scan complete!"].
Proof.
  intros Hb Hc.
  assert (Ee : is_empty (strip raw) = false).
  { destruct (strip raw); [discriminate Hc|reflexivity]. }
  rewrite (order_on_line_skipped raw Ee (scan_complete_not_data _ Hc)).
  unfold Order.status_phrases. cbn [Order.looks].
  rewrite (any_in_false _ _ "Starting full 3D scan" Hb), Hc; [reflexivity|].
  cbn [Monitor2.boot_messages In]. tauto.
Qed.

Lemma order_five_fields line :
  any_in Monitor2.boot_messages line = false ->
  List.length (fields line) = 5%nat ->
  exists v, In (Parse v) (Order.is_valid_data_line (F:=F) line).
Proof.
  intros Hb Hl. unfold Order.is_valid_data_line. rewrite Hb.
  unfold fields in Hl. cbv zeta. rewrite Hl. cbn [Nat.eqb].
  destruct (split comma line) as [|v vs]; [discriminate Hl|].
  exists v. apply in_or_app. right. cbn [Order.parses]. now left.
Qed.

Lemma order_vis4_no_parse raw v :
  any_in Vis4.init_messages (strip raw) = true
  \/ contains "Scan complete" (strip raw) = true ->
  ~ In (Parse v) (Order.read_data (F:=F) raw).
Proof.
  intros Hp. unfold Order.read_data. intros Hin.
  apply in_app_or in Hin as [Hin|Hin]; [exact (looks_no_parse _ _ _ Hin)|].
  destruct (any_in Vis4.init_messages (strip raw)).
  - destruct Hin as [E|[]]. discriminate E.
  - destruct Hp as [Hp|Hp]; [discriminate Hp|]. rewrite Hp in Hin.
    destruct Hin as [E|[]]. discriminate E.
Qed.

End OrderFacts.

(* ===================================================================== *)
(** ** The files the reader gives up on *)
(* ===================================================================== *)

Section ReadFaultFacts.
Context {F : Type} `{PyFloat F}.
Variable py_eval : string -> option (list F).





End ReadFaultFacts.

(* ===================================================================== *)
(** ** The claims *)
(* ===================================================================== *)

Section Claims.
Import Ideal IdealFacts Scenarios ScenarioFacts.

Section Conversions.
Local Open Scope R_scope.

(** C1 -- [convert_to_cartesian] maps every sample (distance,
    platform_angle, vertical_angle, height) to
    (distance * cos (radians platform_angle),
     distance * sin (radians platform_angle), height): the height is copied
    and the vertical angle plays no part.  With exact arithmetic the four
    samples of scenario A, given as tuples or read from their lines by the
    4-field capture, become (80,0,0), (0,80,50), (-80,0,100) and
    (0,-80,150) within the tolerance. *)
Theorem C1_forward_conversion :
  (forall (F : Type) (HF : PyFloat F) (ms : list (Conv.measurement F)),
     Conv.convert_to_cartesian ms
     = map (fun m : Conv.measurement F =>
              let '(distance, platform_angle, vertical_angle, height) := m in
              (fmul distance (fcos (fradians platform_angle)),
               fmul distance (fsin (fradians platform_angle)),
               height)) ms)
  /\ (forall (F : Type) (HF : PyFloat F) (distance platform_angle height v v' : F),
        Conv.convert_to_cartesian [(distance, platform_angle, v, height)]
        = Conv.convert_to_cartesian [(distance, platform_angle, v', height)])
  /\ Forall2 (close_point tolerance)
             (Conv.convert_to_cartesian scenario_a_samples) scenario_a_points
  /\ Monitor.read_serial_data (map Line scenario_a_lines ++ [Interrupt])
     = Returned scenario_a_samples.
Proof.
  split; [|split; [|split]].
  - intros F HF ms. unfold Conv.convert_to_cartesian. rewrite fold_append_map.
    simpl. apply map_ext. now intros [[[d pa] va] h].
  - reflexivity.
  - exact scenario_a_converted.
  - exact scenario_a_parsed.
Qed.

(** C2 -- The reconstruction puts the vertical distance of the raw tuple in
    the distance field, not sqrt(x^2 + y^2): the raw-data line
    (1.0, 0.0, 5.0, 45.0, 2.0) gives (2, 0, 45, 5) although
    sqrt(1^2 + 0^2) = 1.  The platform angle is the normalised
    degrees(arctan2(y, x)) and the height is z, as the claim says. *)
Theorem C2_distance_is_the_vertical_distance :
  Conv.read_points_from_file TupleDisplay.eval (Content axis_sample_file)
  = ([(num 2, num 0, num 45, num 5)], [])
  /\ fsqrt (fadd (fmul (num 1) (num 1)) (fmul (num 0) (num 0))) = num 1
  /\ num 2 <> num 1
  /\ (forall (F : Type) (HF : PyFloat F) (x y z vert_angle vert_dist : F),
        Conv.from_raw [x; y; z; vert_angle; vert_dist]
        = Some (vert_dist,
                (if fltb (fdegrees (farctan2 y x)) (of_int 0)
                 then fadd (fdegrees (farctan2 y x)) (of_int 360)
                 else fdegrees (farctan2 y x)),
                vert_angle, z)).
Proof.
  split; [|split; [|split]].
  - unfold Conv.read_points_from_file, axis_sample_file.
    cbn [Conv.read_lines].
    change (Conv.read_line TupleDisplay.eval (false, [])
              (Text "=== Raw Data (x, y, z, vertical_angle, vertical_distance) ==="))
      with (Some (true, @nil (Conv.measurement ideal))).
    cbv beta iota.
    unfold Conv.read_line.
    change (line_contains_marker "=== Raw Data" (Text (F:=ideal) "(1.0, 0.0, 5.0, 45.0, 2.0)"))
      with false.
    change (line_nonblank (Text (F:=ideal) "(1.0, 0.0, 5.0, 45.0, 2.0)")) with true.
    change (line_has_comma (Text (F:=ideal) "(1.0, 0.0, 5.0, 45.0, 2.0)")) with true.
    cbn [andb]. rewrite axis_sample_evaluated. unfold num.
    rewrite (from_raw_x_axis 1 5 45 2) by lra. reflexivity.
  - unfold num. cbn [fsqrt fadd fmul ideal_float sqrt add mul].
    rewrite negative_false by lra.
    replace (1 * 1 + 0 * 0) with 1 by lra. now rewrite sqrt_1.
  - unfold num. intros E. injection E as E. lra.
  - reflexivity.
Qed.

(** C3 -- Saving a capture and rebuilding it from the raw-data section does
    not give the points back: the sample read from the line
    1.0,0.0,5.0,45.0,2.0 is stored as the point (1, 0, 5), saved, read back
    as (2, 0, 45, 5) and converted to (2, 0, 5), which is not within the
    tolerance of (1, 0, 5). *)
Theorem C3_round_trip_moves_the_point :
  exists lines : list (line ideal),
    Monitor2.read_scanner_data [Line axis_sample_line; Interrupt]
    = Returned (store_tuple Monitor2.empty_scan axis_sample)
    /\ Monitor2.points_list (store_tuple Monitor2.empty_scan axis_sample)
       = [(num 1, num 0, num 5)]
    /\ Monitor2.main [Line axis_sample_line; Interrupt] = Some lines
    /\ Conv.main TupleDisplay.eval (Content lines) = Some [(num 2, num 0, num 5)]
    /\ ~ Forall2 (close_point tolerance)
                 [(num 2, num 0, num 5)] [(num 1, num 0, num 5)].
Proof.
  eexists. split; [exact axis_sample_captured|].
  split; [reflexivity|].
  split; [exact axis_sample_saved|].
  split.
  - unfold Conv.main, Conv.read_points_from_file.
    unfold num.
    cbv -[lit IZR Conv.from_raw Conv.convert_to_cartesian].
    change (Conv.from_raw (F:=ideal) [Fin 1; Fin 0; Fin 5; Fin 45; Fin 2])
      with (Conv.from_raw [Fin 1; Fin 0; Fin 5; Fin 45; Fin 2]).
    rewrite (from_raw_x_axis 1 5 45 2) by lra.
    cbv beta iota. unfold Conv.convert_to_cartesian.
    cbn [fold_left app]. now rewrite to_cartesian_x_axis.
  - intros Hc. inversion Hc as [|p q ps qs Hpq _]; subst.
    destruct Hpq as (Hx & _). unfold num in Hx. simpl in Hx.
    replace (2 - 1) with 1 in Hx by lra. rewrite Rabs_R1 in Hx.
    pose proof tolerance_small. lra.
Qed.

End Conversions.

(** C4 -- A line that carries one of the configured status or banner phrases
    is never taken as data, whatever commas and numbers it also holds.
    In the 5-field capture a line with a boot phrase, or with
    "Scan complete!", is rejected by [is_valid_data_line] and leaves the
    three collections as they were.  A status message is printed for it
    exactly when it holds "Starting full 3D scan", "Scan complete!" or
    "Scanning at vertical angle": a line whose only phrases are among the
    other boot phrases is skipped without a word, as noise is.  The boot
    phrases are tested before any field is parsed, and a line that holds one
    is never parsed; "Scan complete!" is looked for last, after
    [is_valid_data_line] has rejected the line, which on a line of five
    fields means after [float] was called.  In the visualiser of test4.py a
    line with an initialisation phrase is reported as status (or as an error
    for "Failed") and a line with "Scan complete" and no such phrase as the
    completion, the point list unchanged and no field ever parsed. *)
Theorem C4_status_lines_by_path :
  forall (F : Type) (HF : PyFloat F) (raw : string),
    let line := PyStr.strip raw in
    (PyStr.any_in Monitor2.boot_messages line = true
     \/ PyStr.contains "Scan complete!" line = true ->
     Monitor2.is_valid_data_line (F:=F) line = false
     /\ forall st : Monitor2.scan F,
          Monitor2.on_line st raw = (st, Monitor2.status_of line))
    /\ (Monitor2.status_of (F:=F) line = []
        <-> PyStr.any_in Order.status_phrases line = false)
    /\ (PyStr.contains "Scan complete!" line = true ->
        Monitor2.status_of line = [Monitor2.ScanStarted (F:=F)]
        \/ Monitor2.status_of line = [Monitor2.ScanCompleted (F:=F)])
    /\ (PyStr.any_in Monitor2.boot_messages line = true ->
        forall v : string, ~ In (Parse v) (Order.on_line (F:=F) raw))
    /\ (PyStr.any_in Monitor2.boot_messages line = false ->
        PyStr.contains "Scan complete!" line = true ->
        Order.on_line (F:=F) raw
        = Order.is_valid_data_line (F:=F) line
          ++ [Look "Starting full 3D scan"; Look "Scan complete!"]
        /\ (List.length (fields line) = 5%nat ->
            exists v : string,
              In (Parse v) (Order.is_valid_data_line (F:=F) line)))
    /\ (PyStr.any_in Vis4.init_messages line = true ->
        forall self : Vis4.visualizer F,
          Vis4.ser self = true ->
          Vis4.read_data self (Got raw)
          = if PyStr.contains "Failed" line
            then (Vis4.set_scanning self false, false,
                  [Vis4.Echo line; Vis4.Error line])
            else (self, true, [Vis4.Echo line; Vis4.Status line]))
    /\ (PyStr.any_in Vis4.init_messages line = false ->
        PyStr.contains "Scan complete" line = true ->
        forall self : Vis4.visualizer F,
          Vis4.ser self = true ->
          Vis4.read_data self (Got raw)
          = (Vis4.set_scanning self false, false,
             [Vis4.Echo line; Vis4.ScanCompleted]))
    /\ (PyStr.any_in Vis4.init_messages line = true
        \/ PyStr.contains "Scan complete" line = true ->
        forall v : string, ~ In (Parse v) (Order.read_data (F:=F) raw)).
Proof.
  intros F HF raw line.
  assert (Hskip : PyStr.any_in Monitor2.boot_messages line = true
                  \/ PyStr.contains "Scan complete!" line = true ->
                  Monitor2.is_valid_data_line (F:=F) line = false).
  { intros [Hb|Hc];
      [now apply boot_message_not_data|now apply scan_complete_not_data]. }
  split; [|split; [|split; [|split; [|split; [|split; [|split]]]]]].
  - intros Hline. split; [now apply Hskip|].
    intros st. apply monitor2_skip. now apply Hskip.
  - apply status_of_silent.
  - intros Hc. unfold Monitor2.status_of. fold line. rewrite Hc.
    destruct (PyStr.contains "Starting full 3D scan" line); [now left|now right].
  - intros Hb v. now apply order_boot_no_parse.
  - intros Hb Hc. split; [now apply order_scan_complete|].
    intros Hl. now apply order_five_fields.
  - intros Hi self Hser. unfold Vis4.read_data. fold line.
    now rewrite Hser, Hi.
  - intros Hi Hc self Hser. unfold Vis4.read_data. fold line.
    now rewrite Hser, Hi, Hc.
  - intros Hp v. now apply order_vis4_no_parse.
Qed.

(** C5 -- A line that is empty, has another number of fields than the
    schema, or has a field [float] rejects, and that carries no status
    phrase, is skipped without an error: the 5-field capture rejects it,
    keeps its three collections and goes on with the next event; the
    visualiser of test4.py keeps its point list, prints only the debug echo
    and returns True.  The line "10.0,clk_drv:,mode:" is such a line on both
    paths. *)
Theorem C5_noise_lines_are_skipped :
  forall (F : Type) (HF : PyFloat F) (raw : string),
    let line := PyStr.strip raw in
    (malformed (F:=F) 5 line ->
     forall (st : Monitor2.scan F) (evs : list event),
       Monitor2.is_valid_data_line (F:=F) line = false
       /\ fst (Monitor2.on_line st raw) = st
       /\ Monitor2.read_loop st (Line raw :: evs) = Monitor2.read_loop st evs)
    /\ (malformed (F:=F) 3 line ->
        PyStr.any_in Vis4.init_messages line = false ->
        PyStr.contains "Scan complete" line = false ->
        forall self : Vis4.visualizer F,
          Vis4.ser self = true ->
          Vis4.read_data self (Got raw) = (self, true, [Vis4.Echo line]))
    /\ (forall st : Monitor2.scan F,
          Monitor2.on_line st "10.0,clk_drv:,mode:" = (st, []))
    /\ (forall self : Vis4.visualizer F,
          Vis4.ser self = true ->
          Vis4.read_data self (Got "10.0,clk_drv:,mode:")
          = (self, true, [Vis4.Echo "10.0,clk_drv:,mode:"])).
Proof.
  intros F HF raw line. split; [|split; [|split]].
  - intros Hm st evs.
    pose proof (malformed_not_data line Hm) as Ev.
    assert (E : Monitor2.on_line st raw = (st, Monitor2.status_of line))
      by now apply monitor2_skip.
    repeat split; [exact Ev|now rewrite E|].
    cbn [Monitor2.read_loop]. now rewrite E.
  - intros Hm Hi Hc self Hser. now apply vis4_malformed.
  - intros st. reflexivity.
  - intros self Hser. unfold Vis4.read_data. rewrite Hser. reflexivity.
Qed.

(** C6, as amended -- In the visualiser of test4.py a session that is
    scanning and reads a line with "Scan complete" (and none of the
    initialisation phrases, which are looked for first) clears [scanning],
    keeps its points and reads nothing further.  In the 5-field capture a
    line with "Scan complete!" is reported and skipped, and the loop goes on
    reading until Ctrl+C.  On the lines of scenario C the 5-field capture
    holds exactly one sample and is still reading, and returns that one
    sample when it is stopped; the visualiser ends with [scanning] cleared
    and no point. *)
Theorem C6_scan_complete_by_path :
  forall (F : Type) (HF : PyFloat F) (raw : string),
    (PyStr.contains "Scan complete" (PyStr.strip raw) = true ->
     PyStr.any_in Vis4.init_messages (PyStr.strip raw) = false ->
     forall (self : Vis4.visualizer F) (rest : list poll),
       Vis4.ser self = true -> Vis4.scanning self = true ->
       Vis4.run self (Got raw :: rest) = (Vis4.set_scanning self false, rest))
    /\ (PyStr.contains "Scan complete!" (PyStr.strip raw) = true ->
        forall (st : Monitor2.scan F) (evs : list event),
          Monitor2.read_loop st (Line raw :: evs) = Monitor2.read_loop st evs)
    /\ (exists st : Monitor2.scan F,
          Monitor2.read_scanner_data (map Line scenario_c) = Running st
          /\ Monitor2.read_scanner_data (map Line scenario_c ++ [Interrupt])
             = Returned st
          /\ List.length (Monitor2.points_list st) = 1%nat)
    /\ Vis4.run (Vis4.started (F:=F)) (map Got scenario_c)
       = (Vis4.set_scanning Vis4.started false, []).
Proof.
  intros F HF raw. split; [|split; [|split]].
  - intros Hc Hi self rest Hser Hscan.
    cbn [Vis4.run]. rewrite Hscan. unfold Vis4.update_plot. rewrite Hscan.
    unfold Vis4.read_data. rewrite Hser, Hi, Hc. cbn [negb fst].
    now apply vis4_run_stopped.
  - intros Hc st evs. cbn [Monitor2.read_loop].
    now rewrite (monitor2_skip st raw (scan_complete_not_data _ Hc)).
  - eexists. split; [reflexivity|]. split; reflexivity.
  - reflexivity.
Qed.




(** C10 -- In the 4-field capture a line is stored exactly when, once
    trimmed, it splits into four comma-separated fields that [float] all
    accepts, and is skipped otherwise; nothing else about the line is
    looked at, so no phrase in it changes that.  The loop goes on after
    every line: a run of lines alone never ends it, and when it returns
    the events held a Ctrl+C.  For a line the loop prints nothing, a parse
    error or the sample it stored: there is no status report. *)
Theorem C10_four_field_capture :
  forall (F : Type) (HF : PyFloat F)
         (pts : list (Monitor.measurement F)) (raw : string) (evs : list event),
    fst (Monitor.on_line pts raw)
    = pts ++ match four_floats (PyStr.strip raw) with
             | Some m => [m]
             | None => []
             end
    /\ Monitor.read_loop pts (Line raw :: evs)
       = Monitor.read_loop (fst (Monitor.on_line pts raw)) evs
    /\ (forall lines : list string,
          Monitor.read_loop pts (map Line lines)
          = Running (pts ++ accepted4 (map Line lines)))
    /\ (forall pts', Monitor.read_loop pts evs = Returned pts' -> In Interrupt evs)
    /\ (snd (Monitor.on_line pts raw) = []
        \/ snd (Monitor.on_line pts raw) = [Monitor.ErrorParsingLine (PyStr.strip raw)]
        \/ exists m, four_floats (PyStr.strip raw) = Some m
                     /\ snd (Monitor.on_line pts raw) = [Monitor.Received m]).
Proof.
  intros F HF pts raw evs. split; [|split; [|split; [|split]]].
  - apply monitor_on_line.
  - reflexivity.
  - intros lines. apply monitor_running.
    induction lines; simpl; [reflexivity|assumption].
  - revert pts. induction evs as [|ev evs IH]; intros pts pts'; simpl.
    + discriminate.
    + destruct ev; intros E.
      * right. now apply (IH _ _ E).
      * right. now apply (IH _ _ E).
      * now left.
      * discriminate.
  - apply monitor_on_line_report.
Qed.

(** X1 -- Reading back a file written by [save_data_to_file] from a raw log
    of finite numbers prints nothing and gives, for every raw tuple
    (x, y, z, vertical_angle, vertical_distance) in order, the sample
    (vertical_distance, degrees(arctan2(y, x)) plus 360 when negative,
    vertical_angle, z); the first two sections of the file play no part. *)
Theorem X1_saved_file_is_read_back :
  forall (F : Type) (HF : PyFloat F) (py_eval : string -> option (list F))
         (pl : list (Monitor2.point F)) (pba : dict F (Monitor2.point F))
         (rd : list (Monitor2.raw_tuple F)),
    forallb finite_tuple rd = true ->
    Conv.read_points_from_file py_eval
      (Content (Monitor2.save_data_to_file pl pba rd))
    = (map rebuilt rd, []).
Proof. intros F HF py_eval pl pba rd Hfin. now apply saved_file_read_back. Qed.


End Claims.

Section Counterexamples.
Import Ideal IdealFacts Scenarios ScenarioFacts.

(** C6, as stated, fails on scenario C: after its four lines the 5-field
    capture has not returned, and a data line that follows "Scan complete!"
    is still stored; the visualiser of test4.py does stop, but it has
    stored no sample, since "10,20,30,5,45" is not a 3-field line. *)
Lemma C6_scan_complete_counterexample :
  (forall st : Monitor2.scan ideal,
     Monitor2.read_scanner_data (map Line scenario_c) <> Returned st)
  /\ (exists st : Monitor2.scan ideal,
        Monitor2.read_scanner_data (map Line (scenario_c ++ ["1,2,3,4,5"]))
        = Running st
        /\ List.length (Monitor2.points_list st) = 2%nat)
  /\ (exists self : Vis4.visualizer ideal,
        Vis4.run Vis4.started (map Got scenario_c) = (self, [])
        /\ Vis4.scanning self = false
        /\ List.length (Vis4.points self) = 0%nat).
Proof.
  split; [|split].
  - intros st.
    assert (R : exists st' : Monitor2.scan ideal,
               Monitor2.read_scanner_data (map Line scenario_c) = Running st')
      by (eexists; reflexivity).
    destruct R as (st' & R). rewrite R. discriminate.
  - eexists. split; reflexivity.
  - eexists. split; [reflexivity|]. split; reflexivity.
Qed.


(** C4, as stated, fails in the 5-field capture.  The banner
    "Scanner initialized" yields no status message: the capture does with it
    what it does with noise, nothing.  And the phrase "Scan complete!" is
    not looked for before the fields are parsed: on a line of five fields
    [float] is called on the first field before the phrase is tested. *)
Lemma C4_silent_banner_counterexample :
  PyStr.any_in Monitor2.boot_messages "Scanner initialized" = true
  /\ Monitor2.on_line (Monitor2.empty_scan (F:=ideal)) "Scanner initialized"
     = (Monitor2.empty_scan, [])
  /\ Monitor2.on_line (Monitor2.empty_scan (F:=ideal)) "junk"
     = (Monitor2.empty_scan, [])
  /\ Order.on_line (F:=ideal) "Scan complete!,1,2,3,4"
     = [Look "SPIWP:"; Look "clk_drv:"; Look "mode:"; Look "load:";
        Look "Scanner initialized"; Look "Starting full 3D scan";
        Look "Scanning at vertical angle";
        Parse "Scan complete!";
        Look "Starting full 3D scan"; Look "Scan complete!"].
Proof. repeat split. Qed.


End Counterexamples.

Section Witnesses.
Import Ideal IdealFacts Scenarios ScenarioFacts.

Lemma C4_witness :
  PyStr.any_in Monitor2.boot_messages "Scanning at vertical angle: 45,1,2,3,4" = true
  /\ Monitor2.is_valid_data_line (F:=ideal) "Scanning at vertical angle: 45,1,2,3,4"
     = false
  /\ (forall v : string,
        ~ In (Parse v)
             (Order.on_line (F:=ideal) "Scanning at vertical angle: 45,1,2,3,4"))
  /\ PyStr.any_in Vis4.init_messages "Scanner ready,1,2" = true
  /\ Vis4.read_data (Vis4.started (F:=ideal)) (Got "Scanner ready,1,2")
     = (Vis4.started, true,
        [Vis4.Echo "Scanner ready,1,2"; Vis4.Status "Scanner ready,1,2"]).
Proof.
  pose proof (C4_status_lines_by_path ideal _
                "Scanning at vertical angle: 45,1,2,3,4") as H5.
  pose proof (C4_status_lines_by_path ideal _ "Scanner ready,1,2") as H3.
  cbv zeta in H5, H3.
  split; [reflexivity|]. split.
  - exact (proj1 (proj1 H5 (or_introl eq_refl))).
  - split.
    + exact (proj1 (proj2 (proj2 (proj2 H5))) eq_refl).
    + split; [reflexivity|].
      exact (proj1 (proj2 (proj2 (proj2 (proj2 (proj2 H3)))))
               eq_refl Vis4.started eq_refl).
Defined.

Lemma C5_witness :
  malformed (F:=ideal) 3 "10.0,clk_drv:,mode:"
  /\ Vis4.read_data (Vis4.started (F:=ideal)) (Got "10.0,clk_drv:,mode:")
     = (Vis4.started, true, [Vis4.Echo "10.0,clk_drv:,mode:"])
  /\ malformed (F:=ideal) 5 "1,2,3"
  /\ fst (Monitor2.on_line (Monitor2.empty_scan (F:=ideal)) "1,2,3")
     = Monitor2.empty_scan.
Proof.
  assert (M3 : malformed (F:=ideal) 3 "10.0,clk_drv:,mode:").
  { right; right. exists "clk_drv:". split; [right; left; reflexivity|reflexivity]. }
  assert (M5 : malformed (F:=ideal) 5 "1,2,3").
  { right; left. discriminate. }
  split; [exact M3|]. split.
  - exact (proj1 (proj2 (C5_noise_lines_are_skipped ideal _ "10.0,clk_drv:,mode:"))
             M3 eq_refl eq_refl Vis4.started eq_refl).
  - split; [exact M5|].
    exact (proj1 (proj2 (proj1 (C5_noise_lines_are_skipped ideal _ "1,2,3")
                           M5 Monitor2.empty_scan []))).
Defined.

Lemma C6_witness :
  PyStr.contains "Scan complete" "Scan complete!" = true
  /\ Vis4.run (Vis4.started (F:=ideal)) [Got "Scan complete!"; Got "1,2,3"]
     = (Vis4.set_scanning Vis4.started false, [Got "1,2,3"]).
Proof.
  split; [reflexivity|].
  exact (proj1 (C6_scan_complete_by_path ideal _ "Scan complete!")
           eq_refl eq_refl Vis4.started [Got "1,2,3"] eq_refl eq_refl).
Defined.




Lemma C10_witness :
  Monitor.read_loop (F:=ideal) [] [Line "80,0,0,0"; Interrupt]
  = Returned (fst (Monitor.on_line [] "80,0,0,0"))
  /\ In Interrupt [Line "80,0,0,0"; Interrupt].
Proof.
  split; [reflexivity|].
  exact (proj1 (proj2 (proj2 (proj2 (C10_four_field_capture ideal _ []
                                       "80,0,0,0" [Line "80,0,0,0"; Interrupt]))))
           _ eq_refl).
Defined.

Lemma X1_witness :
  forallb finite_tuple [axis_sample] = true
  /\ Conv.read_points_from_file TupleDisplay.eval
       (Content (Monitor2.save_data_to_file [] [] [axis_sample]))
     = (map rebuilt [axis_sample], []).
Proof.
  split; [reflexivity|].
  exact (X1_saved_file_is_read_back ideal _ TupleDisplay.eval [] []
           [axis_sample] eq_refl).
Defined.


End Witnesses.

(* ===================================================================== *)
(** ** The visualisers *)
(* ===================================================================== *)

Section SubstringFacts.
Import PyStr StrFacts.

Lemma contains_cons sub a s : contains sub s = true -> contains sub (String a s) = true.
Proof. intros E. cbn [contains]. rewrite E. apply orb_true_r. Qed.

Lemma starts_with_suffix a b : forall s,
  starts_with (a ++ b) s = true -> contains b s = true.
Proof.
  induction a as [|c a IH]; intros s; cbn [append starts_with].
  - intros E. destruct s; cbn [contains]; rewrite E; reflexivity.
  - destruct s as [|d s]; [discriminate|].
    intros E. apply andb_true_iff in E as [_ E].
    apply contains_cons. now apply IH.
Qed.

(** A text that holds a phrase holds every end of the phrase. *)
Lemma contains_suffix a b s :
  contains (a ++ b) s = true -> contains b s = true.
Proof.
  induction s as [|d s IH]; intros E; cbn [contains] in E.
  - rewrite orb_false_r in E. now apply (starts_with_suffix a b).
  - apply orb_true_iff in E as [E|E].
    + now apply (starts_with_suffix a b).
    + apply contains_cons. now apply IH.
Qed.

Lemma contains_empty sub : is_empty sub = false -> contains sub EmptyString = false.
Proof. now destruct sub. Qed.

End SubstringFacts.

Section VisualiserFacts.
Context {F : Type} `{PyFloat F}.
Import PyStr StrFacts LitFacts.

Lemma three_floats_floats line :
  three_floats line =
  match floats (fields line) with
  | Some [x; y; z] => Some (x, y, z)
  | _ => None
  end.
Proof.
  unfold three_floats.
  destruct (fields line) as [|a [|b [|c [|d l]]]]; simpl; try reflexivity.
  - destruct (py_float a); reflexivity.
  - destruct (py_float a), (py_float b); reflexivity.
  - destruct (py_float a), (py_float b), (py_float c); reflexivity.
  - destruct (py_float a), (py_float b), (py_float c), (py_float d);
      try reflexivity.
    destruct (floats l); reflexivity.
Qed.

(** A line that holds a phrase with a character no number is written with
    has a field [float] rejects. *)
Lemma phrase_not_floats c phrase line :
  float_char c = false -> float_space c = false -> Ascii.eqb c comma = false ->
  occurs c phrase = true ->
  contains phrase line = true -> floats (fields line) = None.
Proof.
  intros Hc Hs Hsep Hp Hl.
  apply (floats_foreign c); try assumption.
  now apply (contains_occurs c phrase).
Qed.

Lemma init_message_not_floats line :
  any_in Vis4.init_messages line = true -> floats (fields line) = None.
Proof.
  unfold any_in, Vis4.init_messages. cbn [existsb].
  rewrite !orb_true_iff.
  intros [E|[E|[E|[E|[E|[E|E]]]]]]; [| | | | | |discriminate].
  - now apply (phrase_not_floats "z" "initialized").
  - now apply (phrase_not_floats "g" "configured").
  - now apply (phrase_not_floats "d" "detected").
  - now apply (phrase_not_floats "s" "starting").
  - now apply (phrase_not_floats "r" "ready").
  - now apply (phrase_not_floats "l" "Failed").
Qed.

Lemma scan_complete_not_floats line :
  contains "Scan complete" line = true -> floats (fields line) = None.
Proof. now apply (phrase_not_floats "c" "Scan complete"). Qed.

Lemma status_not_floats line :
  contains "Scanner initialized" line || contains "Starting" line = true ->
  floats (fields line) = None.
Proof.
  intros E. apply orb_true_iff in E as [E|E].
  - now apply (phrase_not_floats "z" "Scanner initialized").
  - now apply (phrase_not_floats "r" "Starting").
Qed.

Lemma failed_is_init line :
  contains "Failed" line = true -> any_in Vis4.init_messages line = true.
Proof.
  intros E. unfold any_in, Vis4.init_messages. cbn [existsb].
  rewrite E. now rewrite !orb_true_r.
Qed.

Lemma three_floats_count line q :
  three_floats line = Some q -> count comma line = 2%nat.
Proof.
  rewrite three_floats_floats.
  destruct (floats (fields line)) as [[|x [|y [|z [|w l]]]]|] eqn:Ef;
    try discriminate.
  intros _. apply floats_length in Ef. unfold fields in Ef.
  rewrite split_length in Ef. simpl in Ef. congruence.
Qed.

(** *** test4.py *)

Lemma vis4_read_data_state (self : Vis4.visualizer F) (p : poll) :
  Vis4.ser self = true ->
  fst (fst (Vis4.read_data self p))
  = {| Vis4.ser := true;
       Vis4.points := Vis4.points self ++ accepted3 [p];
       Vis4.scanning := Vis4.scanning self && negb (stops4 p) |}.
Proof.
  destruct self as [s pts sc]. cbn [Vis4.ser Vis4.points Vis4.scanning].
  intros ->. unfold Vis4.read_data. cbn [Vis4.ser negb].
  destruct p as [|raw|]; cbn [accepted3 flat_map stops4 negb fst];
    rewrite ?app_nil_r, ?andb_true_r; try reflexivity.
  rewrite three_floats_floats. unfold fields.
  destruct (any_in Vis4.init_messages (strip raw)) eqn:Ei.
  - pose proof (init_message_not_floats _ Ei) as Ef. unfold fields in Ef.
    rewrite Ef, app_nil_r. cbn [negb andb]. rewrite orb_false_r.
    destruct (contains "Failed" (strip raw)); cbn [fst negb Vis4.set_scanning
      Vis4.ser Vis4.points Vis4.scanning]; now rewrite ?andb_true_r, ?andb_false_r.
  - assert (Efl : contains "Failed" (strip raw) = false).
    { destruct (contains "Failed" (strip raw)) eqn:E; [|reflexivity].
      apply failed_is_init in E. congruence. }
    rewrite Efl. cbn [negb andb orb].
    destruct (contains "Scan complete" (strip raw)) eqn:Ec.
    + pose proof (scan_complete_not_floats _ Ec) as Ef. unfold fields in Ef.
      rewrite Ef, app_nil_r. cbn [fst negb Vis4.set_scanning
        Vis4.ser Vis4.points Vis4.scanning]. now rewrite andb_false_r.
    + cbn [negb]. rewrite andb_true_r.
      destruct (count comma (strip raw) =? 2)%nat eqn:En.
      * destruct (floats (split comma (strip raw)))
          as [[|x [|y [|z [|w l]]]]|]; cbn [fst Vis4.append_point
          Vis4.ser Vis4.points Vis4.scanning]; now rewrite ?app_nil_r.
      * apply Nat.eqb_neq in En.
        destruct (floats (split comma (strip raw)))
          as [[|x [|y [|z [|w l]]]]|] eqn:Ef; cbn [fst];
          rewrite ?app_nil_r; try reflexivity.
        apply floats_length in Ef. rewrite split_length in Ef.
        simpl in Ef. congruence.
Qed.

Lemma vis4_read_data_result (self : Vis4.visualizer F) (p : poll) :
  Vis4.ser self = true ->
  snd (fst (Vis4.read_data self p))
  = match p with Broken => false | _ => negb (stops4 p) end.
Proof.
  intros Hser. unfold Vis4.read_data. rewrite Hser. cbn [negb].
  destruct p as [|raw|]; try reflexivity. cbn [stops4].
  destruct (any_in Vis4.init_messages (strip raw)) eqn:Ei.
  - cbn [negb andb]. rewrite orb_false_r.
    now destruct (contains "Failed" (strip raw)).
  - assert (Efl : contains "Failed" (strip raw) = false).
    { destruct (contains "Failed" (strip raw)) eqn:E; [|reflexivity].
      apply failed_is_init in E. congruence. }
    rewrite Efl. cbn [negb andb orb].
    destruct (contains "Scan complete" (strip raw)); [reflexivity|].
    destruct (count comma (strip raw) =? 2)%nat; [|reflexivity].
    now destruct (floats (split comma (strip raw))) as [[|x [|y [|z [|w l]]]]|].
Qed.

Lemma stops4_not_point (p : poll) : stops4 p = true -> accepted3 (F:=F) [p] = [].
Proof.
  destruct p as [|raw|]; try discriminate. cbn [stops4 accepted3 flat_map].
  rewrite three_floats_floats, app_nil_r. intros E.
  apply orb_true_iff in E as [E|E].
  - now rewrite (init_message_not_floats _ (failed_is_init _ E)).
  - apply andb_true_iff in E as [_ E].
    now rewrite (scan_complete_not_floats _ E).
Qed.

Lemma vis4_run_until ps : forall self : Vis4.visualizer F,
  Vis4.ser self = true -> Vis4.scanning self = true ->
  Vis4.run self ps
  = ({| Vis4.ser := true;
        Vis4.points := Vis4.points self ++ accepted3 (fst (until stops4 ps));
        Vis4.scanning := match snd (until stops4 ps) with
                         | [] => true
                         | _ :: _ => false
                         end |},
     tl (snd (until stops4 ps))).
Proof.
  induction ps as [|p ps IH]; intros self Hser Hscan.
  - destruct self as [s pts sc]. cbn in *. subst. now rewrite app_nil_r.
  - cbn [Vis4.run until]. rewrite Hscan. unfold Vis4.update_plot. rewrite Hscan.
    rewrite (vis4_read_data_state self p Hser), Hscan. cbn [andb].
    destruct (stops4 p) eqn:Es; cbn [negb].
    + cbn [fst snd tl].
      rewrite vis4_run_stopped by reflexivity.
      rewrite (stops4_not_point p Es). reflexivity.
    + rewrite IH by reflexivity. cbn [Vis4.points].
      destruct (until stops4 ps) as [pre rest]. cbn [fst snd].
      unfold accepted3. cbn [flat_map]. now rewrite app_nil_r, <- app_assoc.
Qed.

(** *** test3.py *)

Lemma vis3_read_data_state (self : Vis3.visualizer F) (p : poll) :
  Vis3.ser self = true ->
  fst (fst (Vis3.read_data self p))
  = {| Vis3.ser := true;
       Vis3.points := Vis3.points self ++ accepted3 [p];
       Vis3.scanning := Vis3.scanning self && negb (stops3 p) |}.
Proof.
  destruct self as [s pts sc]. cbn [Vis3.ser Vis3.points Vis3.scanning].
  intros ->. unfold Vis3.read_data. cbn [Vis3.ser negb].
  destruct p as [|raw|]; cbn [accepted3 flat_map stops3 negb fst];
    rewrite ?app_nil_r, ?andb_true_r; try reflexivity.
  rewrite three_floats_floats. unfold fields.
  destruct (is_empty (strip raw)) eqn:Ee.
  - apply is_empty_true in Ee. rewrite Ee. cbn. now rewrite app_nil_r, andb_true_r.
  - destruct (contains "Scanner initialized" (strip raw)
              || contains "Starting" (strip raw)) eqn:Es.
    + pose proof (status_not_floats _ Es) as Ef. unfold fields in Ef.
      rewrite Ef, app_nil_r. cbn [negb andb fst]. now rewrite andb_true_r.
    + cbn [negb andb].
      destruct (contains "Scan complete" (strip raw)) eqn:Ec.
      * pose proof (scan_complete_not_floats _ Ec) as Ef. unfold fields in Ef.
        rewrite Ef, app_nil_r. cbn [fst negb Vis3.set_scanning
          Vis3.ser Vis3.points Vis3.scanning]. now rewrite andb_false_r.
      * cbn [negb]. rewrite andb_true_r.
        destruct (floats (split comma (strip raw)))
          as [[|x [|y [|z [|w l]]]]|]; cbn [fst Vis3.append_point
          Vis3.ser Vis3.points Vis3.scanning]; now rewrite ?app_nil_r.
Qed.

Lemma vis3_read_data_result (self : Vis3.visualizer F) (p : poll) :
  Vis3.ser self = true ->
  snd (fst (Vis3.read_data self p))
  = match p with Broken => false | _ => negb (stops3 p) end.
Proof.
  intros Hser. unfold Vis3.read_data. rewrite Hser. cbn [negb].
  destruct p as [|raw|]; try reflexivity. cbn [stops3].
  destruct (is_empty (strip raw)) eqn:Ee.
  - apply is_empty_true in Ee. rewrite Ee. reflexivity.
  - destruct (contains "Scanner initialized" (strip raw)
              || contains "Starting" (strip raw)); [reflexivity|].
    cbn [negb andb].
    destruct (contains "Scan complete" (strip raw)); [reflexivity|].
    now destruct (floats (split comma (strip raw))) as [[|x [|y [|z [|w l]]]]|].
Qed.

Lemma vis3_run_stopped (self : Vis3.visualizer F) ps :
  Vis3.scanning self = false -> Vis3.run self ps = (self, ps).
Proof. intros E. destruct ps; simpl; [reflexivity|now rewrite E]. Qed.

Lemma stops3_not_point (p : poll) : stops3 p = true -> accepted3 (F:=F) [p] = [].
Proof.
  destruct p as [|raw|]; try discriminate. cbn [stops3 accepted3 flat_map].
  rewrite three_floats_floats, app_nil_r. intros E.
  apply andb_true_iff in E as [_ E].
  now rewrite (scan_complete_not_floats _ E).
Qed.

Lemma vis3_run_until ps : forall self : Vis3.visualizer F,
  Vis3.ser self = true -> Vis3.scanning self = true ->
  Vis3.run self ps
  = ({| Vis3.ser := true;
        Vis3.points := Vis3.points self ++ accepted3 (fst (until stops3 ps));
        Vis3.scanning := match snd (until stops3 ps) with
                         | [] => true
                         | _ :: _ => false
                         end |},
     tl (snd (until stops3 ps))).
Proof.
  induction ps as [|p ps IH]; intros self Hser Hscan.
  - destruct self as [s pts sc]. cbn in *. subst. now rewrite app_nil_r.
  - cbn [Vis3.run until]. rewrite Hscan. unfold Vis3.update_plot. rewrite Hscan.
    rewrite (vis3_read_data_state self p Hser), Hscan. cbn [andb].
    destruct (stops3 p) eqn:Es; cbn [negb].
    + cbn [fst snd tl].
      rewrite vis3_run_stopped by reflexivity.
      rewrite (stops3_not_point p Es). reflexivity.
    + rewrite IH by reflexivity. cbn [Vis3.points].
      destruct (until stops3 ps) as [pre rest]. cbn [fst snd].
      unfold accepted3. cbn [flat_map]. now rewrite app_nil_r, <- app_assoc.
Qed.

(** *** The two visualisers side by side *)

Lemma quiet_stops (p : poll) : quiet p = true -> stops3 p = stops4 p.
Proof.
  destruct p as [|raw|]; try reflexivity. cbn [quiet stops3 stops4].
  intros E. apply andb_true_iff in E as [Ei Es].
  apply negb_true_iff in Ei, Es. rewrite Ei, Es. cbn [negb andb].
  assert (Efl : contains "Failed" (strip raw) = false).
  { destruct (contains "Failed" (strip raw)) eqn:E; [|reflexivity].
    apply failed_is_init in E. congruence. }
  assert (Esi : contains "Scanner initialized" (strip raw) = false).
  { destruct (contains "Scanner initialized" (strip raw)) eqn:E; [|reflexivity].
    apply (contains_suffix "Scanner " "initialized") in E.
    unfold any_in, Vis4.init_messages in Ei. cbn [existsb] in Ei.
    rewrite E in Ei. discriminate. }
  now rewrite Efl, Esi.
Qed.

Lemma until_ext {A : Type} (f g : A -> bool) (l : list A) :
  Forall (fun a => f a = g a) l -> until f l = until g l.
Proof.
  induction 1 as [|a l Ha _ IH]; [reflexivity|].
  cbn [until]. now rewrite Ha, IH.
Qed.

Lemma until_app {A : Type} (f : A -> bool) (l : list A) :
  l = fst (until f l) ++ snd (until f l).
Proof.
  induction l as [|a l IH]; [reflexivity|]. cbn [until].
  destruct (f a); [reflexivity|].
  destruct (until f l) as [pre rest]. cbn [fst snd app] in *. now f_equal.
Qed.

Lemma until_prefix {A : Type} (f : A -> bool) (l : list A) :
  forallb (fun a => negb (f a)) (fst (until f l)) = true.
Proof.
  induction l as [|a l IH]; [reflexivity|]. cbn [until].
  destruct (f a) eqn:E; [reflexivity|].
  destruct (until f l) as [pre rest]. cbn [fst forallb] in *. now rewrite E, IH.
Qed.

Lemma until_rest {A : Type} (f : A -> bool) (l : list A) :
  match snd (until f l) with [] => True | a :: _ => f a = true end.
Proof.
  induction l as [|a l IH]; [exact I|]. cbn [until].
  destruct (f a) eqn:E; [exact E|].
  now destruct (until f l) as [pre rest].
Qed.

End VisualiserFacts.

(* ===================================================================== *)
(** ** The 5-field capture, line by line, and its file *)
(* ===================================================================== *)

Section CaptureFacts.
Context {F : Type} `{PyFloat F}.
Import PyStr StrFacts.




End CaptureFacts.

Section PipelineFacts.
Context {F : Type} `{PyFloat F}.
Variable py_eval : string -> option (list F).

Lemma raw_section_skip (pre : list (line F)) : forall l rest,
  forallb no_marker pre = true ->
  line_contains_marker "=== Raw Data" l = true ->
  raw_section (pre ++ l :: rest) = rest.
Proof.
  induction pre as [|a pre IH]; intros l rest Hpre Hl.
  - cbn [app raw_section]. now rewrite Hl.
  - cbn [forallb] in Hpre. apply andb_true_iff in Hpre as [Ha Hpre].
    cbn [app raw_section]. unfold no_marker in Ha.
    destruct (line_contains_marker "=== Raw Data" a); [discriminate|].
    now apply IH.
Qed.

Lemma saved_raw_section pl pba (rd : list (Monitor2.raw_tuple F)) :
  raw_section (Monitor2.save_data_to_file pl pba rd) = map Monitor2.raw_line rd.
Proof.
  unfold Monitor2.save_data_to_file.
  rewrite !app_assoc.
  rewrite <- (app_assoc _ [Text ""; Text "=== Raw Data (x, y, z, vertical_angle, vertical_distance) ==="]).
  change ([Text (F:=F) ""; Text "=== Raw Data (x, y, z, vertical_angle, vertical_distance) ==="]
          ++ map Monitor2.raw_line rd)
    with ([Text (F:=F) ""]
          ++ Text "=== Raw Data (x, y, z, vertical_angle, vertical_distance) ==="
             :: map Monitor2.raw_line rd).
  rewrite app_assoc. apply raw_section_skip; [|reflexivity].
  rewrite !forallb_app, point_lines_no_marker, group_lines_no_marker.
  reflexivity.
Qed.

Lemma raw_line_not_finite (t : Monitor2.raw_tuple F) :
  finite_tuple t = false ->
  tuple_line (Monitor2.raw_line t) = true
  /\ ~ well_formed py_eval (Monitor2.raw_line t).
Proof.
  destruct t as [[[[x y] z] w] v]. unfold finite_tuple. intros Hf.
  split; [reflexivity|].
  intros (a & b & c & d & e & E).
  cbn [Monitor2.raw_line Conv.line_eval] in E. rewrite Hf in E. discriminate.
Qed.

Lemma forallb_false_In {A : Type} (f : A -> bool) (l : list A) :
  forallb f l = false -> exists a, In a l /\ f a = false.
Proof.
  induction l as [|a l IH]; [discriminate|]. cbn [forallb].
  destruct (f a) eqn:E.
  - intros Hl. destruct (IH Hl) as (b & Hin & Hb). exists b. split; [now right|exact Hb].
  - intros _. exists a. split; [now left|exact E].
Qed.

Lemma saved_file_not_finite pl pba (rd : list (Monitor2.raw_tuple F)) :
  forallb finite_tuple rd = false ->
  Conv.read_points_from_file py_eval
    (Content (Monitor2.save_data_to_file pl pba rd))
  = ([], [Conv.ErrorReadingFile]).
Proof.
  intros Hf. destruct (forallb_false_In _ _ Hf) as (t & Hin & Ht).
  destruct (raw_line_not_finite t Ht) as (Htl & Hwf).
  unfold Conv.read_points_from_file.
  rewrite (read_lines_before_marker py_eval); [reflexivity|].
  exists (Monitor2.raw_line t). rewrite saved_raw_section.
  split; [now apply in_map|]. now split.
Qed.

Lemma read_lines_no_marker (lines : list (line F)) pts :
  forallb no_marker lines = true ->
  Conv.read_lines py_eval (false, pts) lines = Some (false, pts).
Proof.
  intros Hl. rewrite <- (app_nil_r lines).
  now rewrite (read_lines_skip py_eval lines [] pts Hl).
Qed.

Lemma convert_map (ms : list (Conv.measurement F)) :
  Conv.convert_to_cartesian ms = map Conv.to_cartesian ms.
Proof. unfold Conv.convert_to_cartesian. now rewrite fold_append_map. Qed.

End PipelineFacts.

(* ===================================================================== *)
(** ** The order of the angle section *)
(* ===================================================================== *)

Section SortFacts.
Context {F : Type} `{PyFloat F} {P : Type}.

Lemma insert_sorted_perm (e : F * list P) (d : dict F P) :
  Permutation (insert_sorted e d) (e :: d).
Proof.
  induction d as [|e' d IH]; cbn [insert_sorted]; [reflexivity|].
  destruct (fltb (fst e') (fst e)); [|reflexivity].
  rewrite IH. apply perm_swap.
Qed.

Lemma sorted_items_perm (d : dict F P) : Permutation (sorted_items d) d.
Proof.
  induction d as [|e d IH]; [reflexivity|].
  unfold sorted_items in *. cbn [fold_right].
  rewrite insert_sorted_perm. now apply perm_skip.
Qed.

Lemma insert_sorted_keys (e : F * list P) (d : dict F P) k :
  In k (map fst (insert_sorted e d)) <-> k = fst e \/ In k (map fst d).
Proof.
  pose proof (Permutation_map fst (insert_sorted_perm e d)) as Hp.
  split; intros Hk.
  - apply (Permutation_in _ Hp) in Hk. destruct Hk as [<-|Hk]; auto.
  - apply (Permutation_in _ (Permutation_sym Hp)).
    destruct Hk as [->|Hk]; [now left|now right].
Qed.

Lemma insert_sorted_ascending (ks : list F) (e : F * list P) (d : dict F P) :
  ordered_keys ks -> In (fst e) ks -> incl (map fst d) ks ->
  ascending (map fst d) -> ascending (map fst (insert_sorted e d)).
Proof.
  intros (Hasym & Htrans) He.
  induction d as [|e' d IH]; intros Hincl Hd; cbn [insert_sorted].
  - repeat constructor.
  - assert (He' : In (fst e') ks) by (apply Hincl; now left).
    assert (Hincl' : incl (map fst d) ks)
      by (intros k Hk; apply Hincl; now right).
    inversion Hd as [|a l Hl Hall]; subst.
    destruct (fltb (fst e') (fst e)) eqn:El.
    + cbn [map]. constructor; [now apply IH|].
      apply Forall_forall. intros k Hk.
      apply insert_sorted_keys in Hk as [->|Hk].
      * now apply Hasym.
      * rewrite Forall_forall in Hall. now apply Hall.
    + cbn [map]. constructor; [exact Hd|].
      constructor; [exact El|].
      apply Forall_forall. intros k Hk.
      rewrite Forall_forall in Hall.
      apply (Htrans (fst e) (fst e') k); auto.
Qed.

Lemma sorted_items_keys (d : dict F P) k :
  In k (map fst (sorted_items d)) <-> In k (map fst d).
Proof.
  pose proof (Permutation_map fst (sorted_items_perm d)) as Hp.
  split; intros Hk.
  - now apply (Permutation_in _ Hp).
  - now apply (Permutation_in _ (Permutation_sym Hp)).
Qed.

Lemma sorted_items_ascending (d : dict F P) :
  ordered_keys (map fst d) -> ascending (map fst (sorted_items d)).
Proof.
  intros Ho.
  assert (G : forall d' : dict F P, incl (map fst d') (map fst d) ->
                          ascending (map fst (sorted_items d'))).
  { induction d' as [|e d' IH]; intros Hincl.
    - constructor.
    - change (sorted_items (e :: d')) with (insert_sorted e (sorted_items d')).
      apply (insert_sorted_ascending (map fst d)); try assumption.
      + apply Hincl. now left.
      + intros k Hk. apply (proj1 (sorted_items_keys d' k)) in Hk.
        apply Hincl. now right.
      + apply IH. intros k Hk. apply Hincl. now right. }
  apply G. apply incl_refl.
Qed.

End SortFacts.

Section HeadingFacts.
Context {F : Type} `{PyFloat F}.

Lemma headings_app (a b : list (line F)) :
  headings (a ++ b) = headings a ++ headings b.
Proof. unfold headings. now rewrite flat_map_app. Qed.

Lemma headings_points (ps : list (Monitor2.point F)) :
  headings (map Monitor2.point_line ps) = [].
Proof. induction ps as [|[[x y] z] ps IH]; [reflexivity|exact IH]. Qed.

Lemma headings_raw (rd : list (Monitor2.raw_tuple F)) :
  headings (map Monitor2.raw_line rd) = [].
Proof. induction rd as [|[[[[x y] z] w] v] rd IH]; [reflexivity|exact IH]. Qed.

Lemma headings_groups (d : dict F (Monitor2.point F)) :
  headings (flat_map (fun e => [Text ""; AngleHeading (fst e)]
                               ++ map Monitor2.point_line (snd e)) d)
  = map fst d.
Proof.
  induction d as [|e d IH]; [reflexivity|].
  cbn [flat_map map]. rewrite !headings_app, IH, headings_points.
  reflexivity.
Qed.

Lemma saved_headings pl pba (rd : list (Monitor2.raw_tuple F)) :
  headings (Monitor2.save_data_to_file pl pba rd) = map fst (sorted_items pba).
Proof.
  unfold Monitor2.save_data_to_file.
  rewrite !headings_app, headings_points, headings_groups, headings_raw.
  cbn. now rewrite app_nil_r.
Qed.

End HeadingFacts.

(* ===================================================================== *)
(** ** Exact arithmetic: the order of finite keys *)
(* ===================================================================== *)

Module KeyFacts.
Import Ideal IdealFacts.
Local Open Scope R_scope.

(** [<] orders finite keys. *)
Lemma finite_keys_ordered (ks : list ideal) :
  forallb isfinite ks = true -> ordered_keys ks.
Proof.
  intros Hf. rewrite forallb_forall in Hf.
  assert (Hfin : forall a, In a ks -> exists r, a = Fin r).
  { intros a Ha. specialize (Hf a Ha). destruct a; try discriminate. now exists r. }
  split.
  - intros a b Ha Hb. destruct (Hfin a Ha) as (x & ->), (Hfin b Hb) as (y & ->).
    cbn [fltb ideal_float ltb].
    destruct (Rlt_dec x y), (Rlt_dec y x); try reflexivity; try discriminate. lra.
  - intros a b c Ha Hb Hc.
    destruct (Hfin a Ha) as (x & ->), (Hfin b Hb) as (y & ->),
      (Hfin c Hc) as (z & ->).
    cbn [fltb ideal_float ltb].
    destruct (Rlt_dec y x), (Rlt_dec z y), (Rlt_dec z x);
      try reflexivity; try discriminate. lra.
Qed.

End KeyFacts.

(* ===================================================================== *)
(** ** The file of the 4-field capture *)
(* ===================================================================== *)

Section MonitorFileFacts.
Context {F : Type} `{PyFloat F}.
Variable float_text : F -> string.
Variable py_eval : string -> option (list F).
Import PyStr StrFacts.

Lemma occurs_append c (a b : string) :
  occurs c (a ++ b) = occurs c a || occurs c b.
Proof.
  induction a as [|d a IH]; [reflexivity|].
  cbn [append occurs]. now rewrite IH, orb_assoc.
Qed.

Lemma marker_needs_equals s :
  occurs "=" s = false -> contains "=== Raw Data" s = false.
Proof.
  intros Ho. destruct (contains "=== Raw Data" s) eqn:Ec; [|reflexivity].
  apply (contains_occurs "=" "=== Raw Data" s) in Ec; [congruence|reflexivity].
Qed.

Lemma row_no_marker (p : Monitor.measurement F) :
  (forall v, occurs "=" (float_text v) = false) ->
  no_marker (MonitorFile.row float_text p) = true.
Proof.
  intros Ht. destruct p as [[[a b] c] d].
  unfold no_marker. cbn [MonitorFile.row line_contains_marker].
  rewrite marker_needs_equals; [reflexivity|].
  rewrite !occurs_append, !Ht. reflexivity.
Qed.

Lemma save_measurements_no_marker (pts : list (Monitor.measurement F)) :
  (forall v, occurs "=" (float_text v) = false) ->
  forallb no_marker (MonitorFile.save_measurements float_text pts) = true.
Proof.
  intros Ht. unfold MonitorFile.save_measurements. cbn [forallb].
  change (no_marker (Text (F:=F) "distance,platform_angle,vertical_angle,height"))
    with true.
  cbn [andb]. induction pts as [|p pts IH]; [reflexivity|].
  cbn [map forallb]. now rewrite row_no_marker, IH.
Qed.

Lemma no_marker_file (lines : list (line F)) :
  forallb no_marker lines = true ->
  Conv.read_points_from_file py_eval (Content lines) = ([], [])
  /\ Conv.main py_eval (Content lines) = None.
Proof.
  intros Hl. unfold Conv.main, Conv.read_points_from_file.
  rewrite (read_lines_no_marker py_eval lines [] Hl). now split.
Qed.

End MonitorFileFacts.

(* ===================================================================== *)
(** ** One line, three readers *)
(* ===================================================================== *)

Section SchemaFacts.
Context {F : Type} `{PyFloat F}.
Import PyStr StrFacts.

Lemma three_floats_fields line (q : F * F * F) :
  three_floats line = Some q -> List.length (fields line) = 3%nat.
Proof.
  unfold three_floats.
  destruct (fields line) as [|a [|b [|c [|d l]]]]; try discriminate; reflexivity.
Qed.

Lemma four_floats_fields line (q : F * F * F * F) :
  four_floats line = Some q -> List.length (fields line) = 4%nat.
Proof.
  unfold four_floats.
  destruct (fields line) as [|a [|b [|c [|d [|e l]]]]]; try discriminate;
    reflexivity.
Qed.

Lemma five_floats_fields line (q : F * F * F * F * F) :
  five_floats line = Some q -> List.length (fields line) = 5%nat.
Proof.
  unfold five_floats.
  destruct (fields line) as [|a [|b [|c [|d [|e [|g l]]]]]]; try discriminate;
    reflexivity.
Qed.

Lemma data5_fields raw (t : F * F * F * F * F) :
  data5 raw = Some t -> List.length (fields (strip raw)) = 5%nat.
Proof.
  unfold data5. destruct (any_in Monitor2.boot_messages (strip raw));
    [discriminate|]. apply five_floats_fields.
Qed.

Lemma raw_data_on_line (st : Monitor2.scan F) raw :
  Monitor2.raw_data (fst (Monitor2.on_line st raw))
  = Monitor2.raw_data st
    ++ match data5 raw with Some t => [t] | None => [] end.
Proof.
  rewrite monitor2_on_line. destruct (data5 raw) as [[[[[x y] z] w] v]|].
  - reflexivity.
  - now rewrite app_nil_r.
Qed.

Lemma vis4_points_on_line (self : Vis4.visualizer F) raw :
  Vis4.points (fst (fst (Vis4.read_data self (Got raw))))
  = Vis4.points self
    ++ if Vis4.ser self
       then match three_floats (strip raw) with Some q => [q] | None => [] end
       else [].
Proof.
  destruct (Vis4.ser self) eqn:Es.
  - rewrite (vis4_read_data_state self (Got raw) Es).
    cbn [Vis4.points accepted3 flat_map]. now rewrite app_nil_r.
  - unfold Vis4.read_data. rewrite Es. cbn [negb fst]. now rewrite app_nil_r.
Qed.

Lemma vis3_points_on_line (self : Vis3.visualizer F) raw :
  Vis3.points (fst (fst (Vis3.read_data self (Got raw))))
  = Vis3.points self
    ++ if Vis3.ser self
       then match three_floats (strip raw) with Some q => [q] | None => [] end
       else [].
Proof.
  destruct (Vis3.ser self) eqn:Es.
  - rewrite (vis3_read_data_state self (Got raw) Es).
    cbn [Vis3.points accepted3 flat_map]. now rewrite app_nil_r.
  - unfold Vis3.read_data. rewrite Es. cbn [negb fst]. now rewrite app_nil_r.
Qed.

End SchemaFacts.

(* ===================================================================== *)
(** ** Further properties of the scripts *)
(* ===================================================================== *)

Section Extras.
Import Ideal IdealFacts KeyFacts.



(** X5 -- One sample with an infinity or a NaN among its five numbers makes
    the whole saved file unreadable for test2.py: the reader prints its
    error message and returns the empty list, whatever else the raw log
    holds, and [main] stops with no points. *)
Theorem X5_non_finite_sample_spoils_the_file :
  forall (F : Type) (HF : PyFloat F) (py_eval : string -> option (list F))
         (pl : list (Monitor2.point F)) (pba : dict F (Monitor2.point F))
         (rd : list (Monitor2.raw_tuple F)),
    forallb finite_tuple rd = false ->
    Conv.read_points_from_file py_eval
      (Content (Monitor2.save_data_to_file pl pba rd))
    = ([], [Conv.ErrorReadingFile])
    /\ Conv.main py_eval (Content (Monitor2.save_data_to_file pl pba rd)) = None.
Proof.
  intros F HF py_eval pl pba rd Hf.
  pose proof (saved_file_not_finite py_eval pl pba rd Hf) as E.
  split; [exact E|]. unfold Conv.main. now rewrite E.
Qed.

(** X6 -- The sub-headings of the angle section of a saved file are the
    keys of the dictionary, each once; and where [<] orders the keys (no
    key is a NaN) no sub-heading is less than one written before it. *)
Theorem X6_angle_section_order :
  forall (F : Type) (HF : PyFloat F)
         (pl : list (Monitor2.point F)) (pba : dict F (Monitor2.point F))
         (rd : list (Monitor2.raw_tuple F)),
    Permutation (headings (Monitor2.save_data_to_file pl pba rd)) (map fst pba)
    /\ (ordered_keys (map fst pba) ->
        ascending (headings (Monitor2.save_data_to_file pl pba rd))).
Proof.
  intros F HF pl pba rd. rewrite saved_headings. split.
  - apply Permutation_map, sorted_items_perm.
  - apply sorted_items_ascending.
Qed.

(** X7 -- The visualiser of test4.py, once connected.  One call of
    [read_data] appends a point exactly when the trimmed line is three
    fields that [float] accepts (no phrase and no comma count ever keeps
    such a line out), clears [scanning] exactly on a line with "Failed" or,
    with no initialisation phrase, with "Scan complete", and changes
    nothing on an empty port or a port fault; it returns False on a port
    fault and on the lines that clear [scanning].  The animation, whose
    drawing calls are taken to return, therefore reads up to the first such
    line, which it consumes, and holds the points of the lines before it; a
    port fault does not end it. *)
Theorem X7_vis4_session :
  forall (F : Type) (HF : PyFloat F) (self : Vis4.visualizer F)
         (ps : list poll),
    Vis4.ser self = true ->
    (forall p : poll,
       fst (fst (Vis4.read_data self p))
       = {| Vis4.ser := true;
            Vis4.points := Vis4.points self ++ accepted3 [p];
            Vis4.scanning := Vis4.scanning self && negb (stops4 p) |}
       /\ snd (fst (Vis4.read_data self p))
          = match p with Broken => false | _ => negb (stops4 p) end)
    /\ (Vis4.scanning self = true ->
        exists pre rest : list poll,
          ps = pre ++ rest
          /\ forallb (fun p => negb (stops4 p)) pre = true
          /\ match rest with [] => True | p :: _ => stops4 p = true end
          /\ Vis4.run self ps
             = ({| Vis4.ser := true;
                   Vis4.points := Vis4.points self ++ accepted3 pre;
                   Vis4.scanning := match rest with
                                    | [] => true
                                    | _ :: _ => false
                                    end |},
                tl rest)).
Proof.
  intros F HF self ps Hser. split.
  - intros p. split;
      [now apply vis4_read_data_state|now apply vis4_read_data_result].
  - intros Hscan.
    exists (fst (until stops4 ps)), (snd (until stops4 ps)).
    split; [apply until_app|]. split; [apply until_prefix|].
    split; [apply until_rest|]. now apply vis4_run_until.
Qed.

(** X8 -- The visualiser of test3.py, once connected, in the same terms:
    a point is appended exactly for a trimmed line of three fields that
    [float] accepts, [scanning] is cleared exactly on a line with
    "Scan complete" and neither "Scanner initialized" nor "Starting", and
    the animation, whose drawing calls are taken to return, reads up to the
    first such line. *)
Theorem X8_vis3_session :
  forall (F : Type) (HF : PyFloat F) (self : Vis3.visualizer F)
         (ps : list poll),
    Vis3.ser self = true ->
    (forall p : poll,
       fst (fst (Vis3.read_data self p))
       = {| Vis3.ser := true;
            Vis3.points := Vis3.points self ++ accepted3 [p];
            Vis3.scanning := Vis3.scanning self && negb (stops3 p) |}
       /\ snd (fst (Vis3.read_data self p))
          = match p with Broken => false | _ => negb (stops3 p) end)
    /\ (Vis3.scanning self = true ->
        exists pre rest : list poll,
          ps = pre ++ rest
          /\ forallb (fun p => negb (stops3 p)) pre = true
          /\ match rest with [] => True | p :: _ => stops3 p = true end
          /\ Vis3.run self ps
             = ({| Vis3.ser := true;
                   Vis3.points := Vis3.points self ++ accepted3 pre;
                   Vis3.scanning := match rest with
                                    | [] => true
                                    | _ :: _ => false
                                    end |},
                tl rest)).
Proof.
  intros F HF self ps Hser. split.
  - intros p. split;
      [now apply vis3_read_data_state|now apply vis3_read_data_result].
  - intros Hscan.
    exists (fst (until stops3 ps)), (snd (until stops3 ps)).
    split; [apply until_app|]. split; [apply until_prefix|].
    split; [apply until_rest|]. now apply vis3_run_until.
Qed.

(** X9 -- On a port that delivers no line with one of the initialisation
    phrases of test4.py and none with "Starting", the visualisers of
    test3.py and test4.py, started with the same points, end with the same
    points and the same value of [scanning], and leave the same polls
    unread (the drawing calls of both are taken to return). *)
Theorem X9_visualisers_agree :
  forall (F : Type) (HF : PyFloat F) (pts : list (F * F * F))
         (ps : list poll),
    forallb quiet ps = true ->
    Vis3.points
      (fst (Vis3.run {| Vis3.ser := true; Vis3.points := pts;
                        Vis3.scanning := true |} ps))
    = Vis4.points
        (fst (Vis4.run {| Vis4.ser := true; Vis4.points := pts;
                          Vis4.scanning := true |} ps))
    /\ Vis3.scanning
         (fst (Vis3.run {| Vis3.ser := true; Vis3.points := pts;
                           Vis3.scanning := true |} ps))
       = Vis4.scanning
           (fst (Vis4.run {| Vis4.ser := true; Vis4.points := pts;
                             Vis4.scanning := true |} ps))
    /\ snd (Vis3.run {| Vis3.ser := true; Vis3.points := pts;
                        Vis3.scanning := true |} ps)
       = snd (Vis4.run {| Vis4.ser := true; Vis4.points := pts;
                          Vis4.scanning := true |} ps).
Proof.
  intros F HF pts ps Hq.
  rewrite vis3_run_until, vis4_run_until by reflexivity.
  assert (E : until stops3 ps = until stops4 ps).
  { apply until_ext. rewrite forallb_forall in Hq. apply Forall_forall.
    intros p Hp. apply quiet_stops. now apply Hq. }
  rewrite E. now repeat split.
Qed.

(** X10 -- One line is a sample for at most one of the three formats: of
    the 4-field capture, the 5-field capture and the visualiser of test4.py
    at most one stores it.  The visualisers of test3.py and test4.py store
    the same point, or none, from any line. *)
Theorem X10_one_format_per_line :
  forall (F : Type) (HF : PyFloat F) (raw : string)
         (pts : list (Monitor.measurement F)) (st : Monitor2.scan F)
         (self : Vis4.visualizer F)
         (connected : bool) (points : list (F * F * F)) (s3 s4 : bool),
    (List.length (fst (Monitor.on_line pts raw))
     + List.length (Monitor2.raw_data (fst (Monitor2.on_line st raw)))
     + List.length (Vis4.points (fst (fst (Vis4.read_data self (Got raw)))))
     <= List.length pts + List.length (Monitor2.raw_data st)
        + List.length (Vis4.points self) + 1)%nat
    /\ Vis3.points
         (fst (fst (Vis3.read_data
                      {| Vis3.ser := connected; Vis3.points := points;
                         Vis3.scanning := s3 |} (Got raw))))
       = Vis4.points
           (fst (fst (Vis4.read_data
                        {| Vis4.ser := connected; Vis4.points := points;
                           Vis4.scanning := s4 |} (Got raw)))).
Proof.
  intros F HF raw pts st self connected points s3 s4. split.
  - rewrite monitor_on_line, raw_data_on_line, vis4_points_on_line.
    rewrite !length_app.
    destruct (four_floats (PyStr.strip raw)) as [m|] eqn:E4;
      destruct (data5 raw) as [t|] eqn:E5;
      destruct (three_floats (PyStr.strip raw)) as [q|] eqn:E3;
      try apply four_floats_fields in E4;
      try apply data5_fields in E5;
      try apply three_floats_fields in E3;
      try congruence;
      destruct (Vis4.ser self); cbn [List.length]; lia.
  - rewrite vis3_points_on_line, vis4_points_on_line. reflexivity.
Qed.

(** X12 -- What the round trip keeps, in every float model.  From a saved
    file whose raw tuples are finite, [main] of test2.py obtains one point
    for each raw tuple, in order, with exactly the z of that tuple as its
    height; the x and y of the point are computed from the x, the y and the
    vertical distance of the tuple and from nothing else, so two raw logs
    that agree on these three give the same x and y. *)
Theorem X12_round_trip_keeps_heights :
  forall (F : Type) (HF : PyFloat F) (py_eval : string -> option (list F))
         (pl pl' : list (Monitor2.point F))
         (pba pba' : dict F (Monitor2.point F))
         (rd rd' : list (Monitor2.raw_tuple F)),
    forallb finite_tuple rd = true -> rd <> [] ->
    exists pts : list (Conv.point F),
      Conv.main py_eval (Content (Monitor2.save_data_to_file pl pba rd))
      = Some pts
      /\ map height_of pts = map (fun t => height_of (point_of t)) rd
      /\ (forallb finite_tuple rd' = true ->
          map plan_of rd' = map plan_of rd ->
          exists pts' : list (Conv.point F),
            Conv.main py_eval (Content (Monitor2.save_data_to_file pl' pba' rd'))
            = Some pts'
            /\ map fst pts' = map fst pts).
Proof.
  intros F HF py_eval pl pl' pba pba' rd rd' Hfin Hne.
  assert (Hmain : forall p d (r : list (Monitor2.raw_tuple F)),
            forallb finite_tuple r = true -> r <> [] ->
            Conv.main py_eval (Content (Monitor2.save_data_to_file p d r))
            = Some (map (fun t => Conv.to_cartesian (rebuilt t)) r)).
  { intros p d r Hf Hn. unfold Conv.main.
    rewrite (saved_file_read_back py_eval p d r Hf). cbn [fst].
    destruct r as [|t r]; [contradiction|].
    cbn [map]. rewrite convert_map. cbn [map]. now rewrite map_map. }
  exists (map (fun t => Conv.to_cartesian (rebuilt t)) rd).
  split; [now apply Hmain|]. split.
  - rewrite map_map. apply map_ext.
    intros [[[[x y] z] va] vd]. reflexivity.
  - intros Hfin' Hplan.
    exists (map (fun t => Conv.to_cartesian (rebuilt t)) rd').
    assert (Hne' : rd' <> []).
    { intros ->. destruct rd; [contradiction|discriminate Hplan]. }
    split; [now apply Hmain|].
    assert (Hp : forall r : list (Monitor2.raw_tuple F),
              map fst (map (fun t => Conv.to_cartesian (rebuilt t)) r)
              = map (fun q : F * F * F =>
                       let '(x, y, vert_dist) := q in
                       fst (Conv.to_cartesian
                              (rebuilt (x, y, vert_dist, vert_dist, vert_dist))))
                    (map plan_of r)).
    { intros r. rewrite !map_map. apply map_ext.
      intros [[[[x y] z] va] vd]. reflexivity. }
    now rewrite !Hp, Hplan.
Qed.

(** X13 -- The file that serialmonitor.py writes, under the name test2.py
    reads by default, holds no raw-data marker, since the text of a float
    has no "=" in it: test2.py reads it without an error message, finds no
    sample and stops with no points.  The 4-field capture writes the file
    exactly when Ctrl+C stops it after at least one accepted line. *)
Theorem X13_simple_file_is_not_read :
  forall (F : Type) (HF : PyFloat F) (float_text : F -> string)
         (py_eval : string -> option (list F)) (evs rest : list event),
    (forall v, PyStr.occurs "="%char (float_text v) = false) ->
    forallb is_input evs = true ->
    match Monitor.main (F:=F) (evs ++ Interrupt :: rest) with
    | Some pts =>
        pts = accepted4 evs /\ pts <> []
        /\ Conv.read_points_from_file py_eval
             (Content (MonitorFile.save_measurements float_text pts))
           = ([], [])
        /\ Conv.main py_eval
             (Content (MonitorFile.save_measurements float_text pts))
           = None
    | None => accepted4 (F:=F) evs = []
    end.
Proof.
  intros F HF float_text py_eval evs rest Ht Hq.
  unfold Monitor.main, Monitor.read_serial_data.
  rewrite (monitor_read_loop_inputs evs [] _ Hq).
  cbn [Monitor.read_loop app].
  destruct (accepted4 evs) as [|p ps]; [reflexivity|].
  split; [reflexivity|]. split; [discriminate|].
  apply no_marker_file. now apply save_measurements_no_marker.
Qed.

End Extras.

(* ===================================================================== *)
(** ** Instances of the further properties *)
(* ===================================================================== *)

Section ExtraWitnesses.
Import Ideal IdealFacts KeyFacts Scenarios ScenarioFacts.


Lemma X5_witness :
  forallb finite_tuple
    (accepted5 (F:=ideal) [Line "1,2,3,45,9"; Line "nan,5,6,30,8"]) = false
  /\ Conv.read_points_from_file TupleDisplay.eval
       (Content (Monitor2.save_data_to_file [] []
                   (accepted5 (F:=ideal)
                      [Line "1,2,3,45,9"; Line "nan,5,6,30,8"])))
     = ([], [Conv.ErrorReadingFile]).
Proof.
  split; [reflexivity|].
  exact (proj1 (X5_non_finite_sample_spoils_the_file ideal _ TupleDisplay.eval
                  [] []
                  (accepted5 (F:=ideal)
                     [Line "1,2,3,45,9"; Line "nan,5,6,30,8"])
                  eq_refl)).
Defined.

Lemma X6_witness :
  ordered_keys (map fst [(num 45, [(num 1, num 2, num 3)]);
                         (num 30, [(num 4, num 5, num 6)])])
  /\ ascending
       (headings
          (Monitor2.save_data_to_file []
             [(num 45, [(num 1, num 2, num 3)]);
              (num 30, [(num 4, num 5, num 6)])] [])).
Proof.
  assert (Ho : ordered_keys (map fst [(num 45, [(num 1, num 2, num 3)]);
                                      (num 30, [(num 4, num 5, num 6)])]))
    by (apply finite_keys_ordered; reflexivity).
  split; [exact Ho|].
  exact (proj2 (X6_angle_section_order ideal _ []
                  [(num 45, [(num 1, num 2, num 3)]);
                   (num 30, [(num 4, num 5, num 6)])] []) Ho).
Defined.

Lemma X7_witness :
  Vis4.ser (Vis4.started (F:=ideal)) = true
  /\ exists pre rest : list poll,
       [Got "1,2,3"; Broken; Got "Scan complete"; Got "4,5,6"] = pre ++ rest
       /\ forallb (fun p => negb (stops4 p)) pre = true
       /\ match rest with [] => True | p :: _ => stops4 p = true end
       /\ Vis4.run (Vis4.started (F:=ideal))
            [Got "1,2,3"; Broken; Got "Scan complete"; Got "4,5,6"]
          = ({| Vis4.ser := true;
                Vis4.points := Vis4.points Vis4.started ++ accepted3 pre;
                Vis4.scanning := match rest with
                                 | [] => true
                                 | _ :: _ => false
                                 end |},
             tl rest).
Proof.
  split; [reflexivity|].
  exact (proj2 (X7_vis4_session ideal _ Vis4.started
                  [Got "1,2,3"; Broken; Got "Scan complete"; Got "4,5,6"]
                  eq_refl) eq_refl).
Defined.

Lemma X8_witness :
  Vis3.ser {| Vis3.ser := true; Vis3.points := @nil (Vis3.point ideal);
              Vis3.scanning := true |} = true
  /\ exists pre rest : list poll,
       [Got "1,2,3"; Got "x,y"; Got "Scan complete"; Got "4,5,6"] = pre ++ rest
       /\ forallb (fun p => negb (stops3 p)) pre = true
       /\ match rest with [] => True | p :: _ => stops3 p = true end
       /\ Vis3.run {| Vis3.ser := true; Vis3.points := @nil (Vis3.point ideal);
                      Vis3.scanning := true |}
            [Got "1,2,3"; Got "x,y"; Got "Scan complete"; Got "4,5,6"]
          = ({| Vis3.ser := true;
                Vis3.points := [] ++ accepted3 pre;
                Vis3.scanning := match rest with
                                 | [] => true
                                 | _ :: _ => false
                                 end |},
             tl rest).
Proof.
  split; [reflexivity|].
  exact (proj2 (X8_vis3_session ideal _
                  {| Vis3.ser := true; Vis3.points := []; Vis3.scanning := true |}
                  [Got "1,2,3"; Got "x,y"; Got "Scan complete"; Got "4,5,6"]
                  eq_refl) eq_refl).
Defined.

Lemma X9_witness :
  forallb quiet [Got "1,2,3"; Empty; Got "Scan complete"; Got "4,5,6"] = true
  /\ Vis3.points
       (fst (Vis3.run {| Vis3.ser := true; Vis3.points := @nil (Vis3.point ideal);
                         Vis3.scanning := true |}
               [Got "1,2,3"; Empty; Got "Scan complete"; Got "4,5,6"]))
     = Vis4.points
         (fst (Vis4.run {| Vis4.ser := true; Vis4.points := [];
                           Vis4.scanning := true |}
                 [Got "1,2,3"; Empty; Got "Scan complete"; Got "4,5,6"])).
Proof.
  split; [reflexivity|].
  exact (proj1 (X9_visualisers_agree ideal _ []
                  [Got "1,2,3"; Empty; Got "Scan complete"; Got "4,5,6"]
                  eq_refl)).
Defined.

Lemma X12_witness :
  forallb finite_tuple [(num 1, num 1, num 5, num 45, num 2)] = true
  /\ exists pts : list (Conv.point ideal),
       Conv.main TupleDisplay.eval
         (Content (Monitor2.save_data_to_file [] []
                     [(num 1, num 1, num 5, num 45, num 2)]))
       = Some pts
       /\ map height_of pts = [num 5].
Proof.
  assert (Hf : forallb finite_tuple [(num 1, num 1, num 5, num 45, num 2)] = true)
    by reflexivity.
  split; [exact Hf|].
  destruct (X12_round_trip_keeps_heights ideal _ TupleDisplay.eval
              [] [] [] [] [(num 1, num 1, num 5, num 45, num 2)] []
              Hf (fun E => nil_cons (eq_sym E)))
    as (pts & Em & Eh & _).
  exists pts. split; [exact Em|exact Eh].
Defined.

Lemma X13_witness :
  (forall v : ideal, PyStr.occurs "="%char ((fun _ => "0.0") v) = false)
  /\ forallb is_input [Line "80,0,0,0"; Line "junk"] = true
  /\ match Monitor.main (F:=ideal)
             ([Line "80,0,0,0"; Line "junk"] ++ Interrupt :: []) with
     | Some pts =>
         pts = accepted4 [Line "80,0,0,0"; Line "junk"] /\ pts <> []
         /\ Conv.read_points_from_file TupleDisplay.eval
              (Content (MonitorFile.save_measurements (fun _ => "0.0") pts))
            = ([], [])
         /\ Conv.main TupleDisplay.eval
              (Content (MonitorFile.save_measurements (fun _ => "0.0") pts))
            = None
     | None => accepted4 (F:=ideal) [Line "80,0,0,0"; Line "junk"] = []
     end.
Proof.
  split; [intros v; reflexivity|]. split; [reflexivity|].
  exact (X13_simple_file_is_not_read ideal _ (fun _ => "0.0")
           TupleDisplay.eval [Line "80,0,0,0"; Line "junk"] []
           (fun v => eq_refl) eq_refl).
Defined.

End ExtraWitnesses.
